(** * watch-net-speed: the monitoring loop and its HTTP API

    A shallow embedding of [monitor/speed-monitor.ts] (whose storage functions
    and scheduler are repeated verbatim in the Ookla variant of the monitor)
    and of [monitor/api-server.ts], with the interval form and the data
    views of the dashboard component that calls the API.

    Conventions of the embedding.
    - A JavaScript number is a rational ([Q]).  The code compares such
      numbers with 1 and 1440 and multiplies an interval by 60 and by 1000;
      on the integers these operations are exact in double precision.
    - A [Date] is its time value: milliseconds since the epoch, or [None]
      for an Invalid Date (time value NaN).  Time values stay far inside the
      range of a Date, so that [TimeClip] is the identity.  The offset of
      the local time zone depends on the instant, as where daylight saving
      is observed.
    - A file holding JSON is one of: missing, text that [JSON.parse] rejects,
      or text that denotes a value of the TypeScript type the code declares
      for it.  [JSON.stringify] followed by [JSON.parse] is the identity on
      such values.  File operations fail in no other way.
    - The monitor is started from the root of the repository, so that its
      [monitor/speed_data.json] and [monitor/config.json] are the files the
      API server finds beside its own source.
    - [measureSpeed] is the measurement provider: what it returns or throws
      is an input of the cycle.
    - [console.log] and [console.error] have no effect on the state and are
      left out. *)

From Stdlib Require Import ZArith QArith List String Ascii Bool Lia Lqa.
Import ListNotations.
Local Open Scope Z_scope.

Set Warnings "-register-all".

Definition number := Q.

(** [a < b] and [a > b] on numbers. *)
Definition ltb (a b : number) : bool := negb (Qle_bool b a).
Definition gtb (a b : number) : bool := ltb b a.

(** ** JavaScript values, as far as request and response bodies need them *)

Inductive value : Type :=
| Undefined
| Null
| Bool (b : bool)
| Num (n : number)
| Str (s : string)
| Arr (items : list value)
| Obj (fields : list (string * value)).

(** [o.k] on an object: the property when present, [undefined] otherwise. *)
Fixpoint lookup (k : string) (fields : list (string * value)) : value :=
  match fields with
  | [] => Undefined
  | (k', v) :: rest => if String.eqb k k' then v else lookup k rest
  end.

(** [const { k } = v]: throws a TypeError ([None]) on [undefined] and [null];
    a primitive or an array has no own property of that name. *)
Definition destructure (k : string) (v : value) : option value :=
  match v with
  | Undefined | Null => None
  | Obj fields => Some (lookup k fields)
  | _ => Some Undefined
  end.

(** ** Date arithmetic (ECMA-262, "Time Values and Time Range") *)

Module Date.

Definition msPerDay : Z := 86400000.

Definition Day (t : Z) : Z := t / msPerDay.
Definition TimeWithinDay (t : Z) : Z := t mod msPerDay.

Definition DayFromYear (y : Z) : Z :=
  365 * (y - 1970) + (y - 1969) / 4 - (y - 1901) / 100 + (y - 1601) / 400.

Definition isLeap (y : Z) : bool :=
  ((y mod 4 =? 0) && negb (y mod 100 =? 0)) || (y mod 400 =? 0).

(** ECMA-262 defines the year of a time value as the largest [y] whose first
    day is not after it.  Years repeat every 146097 days: the search starts
    at the first year of the 400 that contain day [d] and moves on while the
    next year has begun. *)
Fixpoint yearSearch (n : nat) (y d : Z) : Z :=
  match n with
  | O => y
  | S k => if DayFromYear (y + 1) <=? d then yearSearch k (y + 1) d else y
  end.

Definition YearFromDay (d : Z) : Z :=
  yearSearch 400 (1970 + 400 * (d / 146097)) d.

Definition YearFromTime (t : Z) : Z := YearFromDay (Day t).
Definition InLeapYear (t : Z) : bool := isLeap (YearFromTime t).
Definition DayWithinYear (t : Z) : Z := Day t - DayFromYear (YearFromTime t).

(** Day number within the year of the first day of month [m] (0 to 11). *)
Definition monthStart (m : Z) (leap : bool) : Z :=
  let l := if leap then 1 else 0 in
  if m =? 0 then 0 else if m =? 1 then 31 else
  nth (Z.to_nat (m - 2)) [59; 90; 120; 151; 181; 212; 243; 273; 304; 334] 334 + l.

Definition MonthFromTime (t : Z) : Z :=
  let d := DayWithinYear t in
  let leap := InLeapYear t in
  Z.of_nat (List.length (filter (fun m => monthStart m leap <=? d)
                                [1; 2; 3; 4; 5; 6; 7; 8; 9; 10; 11])).

Definition DateFromTime (t : Z) : Z :=
  DayWithinYear t - monthStart (MonthFromTime t) (InLeapYear t) + 1.

Definition MakeTime (h m s ms : Z) : Z := ((h * 60 + m) * 60 + s) * 1000 + ms.

Definition MakeDay (year month date : Z) : Z :=
  let ym := year + month / 12 in
  let mn := month mod 12 in
  DayFromYear ym + monthStart mn (isLeap ym) + date - 1.

Definition MakeDate (day time : Z) : Z := day * msPerDay + time.

Section LocalZone.
(** [LocalTZA t isUTC]: the offset of local time from UTC in milliseconds,
    at the instant [t] when [isUTC] holds and at the local time [t]
    otherwise.  It changes where daylight saving begins and ends. *)
Variable LocalTZA : Z -> bool -> Z.

Definition LocalTime (t : Z) : Z := t + LocalTZA t true.
Definition UTC (t : Z) : Z := t - LocalTZA t false.

(** [d.getDate()] *)
Definition getDate (t : Z) : Z := DateFromTime (LocalTime t).

(** [d.setDate(date)], returning the new time value of [d]. *)
Definition setDate (t : Z) (date : Z) : Z :=
  let lt := LocalTime t in
  let newDate :=
    MakeDate (MakeDay (YearFromTime lt) (MonthFromTime lt) date)
             (TimeWithinDay lt) in
  UTC newDate.
End LocalZone.

(** [a > b] on two Date objects: the comparison of their time values, false
    as soon as one of them is NaN. *)
Definition gt (a b : option Z) : bool :=
  match a, b with
  | Some x, Some y => y <? x
  | _, _ => false
  end.

(** [a >= b] on two Date objects, false as soon as one of them is NaN. *)
Definition ge (a b : option Z) : bool :=
  match a, b with
  | Some x, Some y => y <=? x
  | _, _ => false
  end.

Definition msPerHour : Z := 3600000.
Definition HourFromTime (t : Z) : Z := (t / msPerHour) mod 24.

(** [d.getHours()], for a local zone of offsets [tz]. *)
Definition getHours (tz : Z -> bool -> Z) (t : Z) : Z :=
  HourFromTime (LocalTime tz t).

(** A zone whose offset never changes, such as JST or UTC. *)
Definition fixedOffset (offset : Z) : Z -> bool -> Z := fun _ _ => offset.

(** *** The format written by [toISOString]: YYYY-MM-DDTHH:mm:ss.sssZ *)

Definition digit (c : ascii) : option Z :=
  let n := Z.of_nat (nat_of_ascii c) in
  if (48 <=? n) && (n <=? 57) then Some (n - 48) else None.

Fixpoint digits (acc : Z) (s : string) : option Z :=
  match s with
  | EmptyString => Some acc
  | String c rest =>
      match digit c with
      | Some d => digits (acc * 10 + d) rest
      | None => None
      end
  end.

Definition field (s : string) (pos len : nat) : option Z :=
  let f := substring pos len s in
  if Nat.eqb (String.length f) len then digits 0 f else None.

Definition sep (s : string) (pos : nat) (c : string) : bool :=
  String.eqb (substring pos 1 s) c.

Definition parseISO (s : string) : option Z :=
  match field s 0 4, field s 5 2, field s 8 2,
        field s 11 2, field s 14 2, field s 17 2, field s 20 3 with
  | Some y, Some mo, Some d, Some h, Some mi, Some sec, Some ms =>
      if Nat.eqb (String.length s) 24
         && sep s 4 "-" && sep s 7 "-" && sep s 10 "T"
         && sep s 13 ":" && sep s 16 ":" && sep s 19 "." && sep s 23 "Z"
         && (1 <=? mo) && (mo <=? 12) && (1 <=? d) && (d <=? 31)
         && (h <=? 23) && (mi <=? 59) && (sec <=? 59)
      then Some (MakeDate (MakeDay y (mo - 1) d) (MakeTime h mi sec ms))
      else None
  | _, _, _, _, _, _, _ => None
  end.

End Date.

(** ** Persisted records *)

Record SpeedResult : Type := {
  timestamp : string;
  download : number;
  upload : number;
  ping : number;
  jitter : number;
  server : option string;
  isp : option string
}.

(** The config record.  [others] holds whatever further properties the stored
    object has beside [intervalMinutes] (the dashboard's types allow an
    optional [method]). *)
Record Config : Type := {
  intervalMinutes : number;
  others : list (string * value)
}.

Inductive file (A : Type) : Type :=
| Missing
| Corrupt (text : string)
| Stored (content : A).
Arguments Missing {A}.
Arguments Corrupt {A} text.
Arguments Stored {A} content.

(** The two files of the [monitor] directory, shared by both processes. *)
Record FS : Type := {
  DATA_FILE : file (list SpeedResult);
  CONFIG_FILE : file Config
}.

(** [fs.existsSync(f)] *)
Definition existsSync {A} (f : file A) : bool :=
  match f with
  | Missing => false
  | _ => true
  end.

(** [JSON.parse(fs.readFileSync(f, 'utf-8'))]; [None] when it throws. *)
Definition readJSON {A} (f : file A) : option A :=
  match f with
  | Stored v => Some v
  | _ => None
  end.

(** What the JavaScript runtime provides: the time value of [new Date(s)] for
    a string [s], and the offsets of the local time zone. *)
Class Runtime : Type := {
  parseDate : string -> option Z;
  LocalTZA : Z -> bool -> Z
}.

(** ** monitor/speed-monitor.ts *)

Module SpeedMonitor.

Definition loadData (fs : FS) : list SpeedResult :=
  if negb (existsSync (DATA_FILE fs)) then []
  else match readJSON (DATA_FILE fs) with
       | Some data => data
       | None => []
       end.

Definition saveData (results : list SpeedResult) (fs : FS) : FS :=
  {| DATA_FILE := Stored results; CONFIG_FILE := CONFIG_FILE fs |}.

Definition loadConfig (fs : FS) : Config * FS :=
  if negb (existsSync (CONFIG_FILE fs)) then
    let defaultConfig := {| intervalMinutes := 30%Q; others := [] |} in
    (defaultConfig,
     {| DATA_FILE := DATA_FILE fs; CONFIG_FILE := Stored defaultConfig |})
  else match readJSON (CONFIG_FILE fs) with
       | Some config => (config, fs)
       | None => ({| intervalMinutes := 30%Q; others := [] |}, fs)
       end.

(** What [await measureSpeed()] comes back with: a reading, or a throw. *)
Inductive outcome : Type :=
| Measured (result : SpeedResult)
| Thrown (error : string).

Record Timer : Type := { id : nat; delay : number }.

(** The scheduler process: the disk it sees, its two module variables, the
    timers armed in its event loop, and the number of [runMonitor] calls
    suspended at [await measureSpeed()]. *)
Record World : Type := {
  disk : FS;
  timeoutId : option nat;
  lastConfigCheck : Z;
  pending : list Timer;
  nextId : nat;
  awaiting : nat
}.

Definition setDisk (fs : FS) (w : World) : World :=
  {| disk := fs; timeoutId := timeoutId w;
     lastConfigCheck := lastConfigCheck w; pending := pending w;
     nextId := nextId w; awaiting := awaiting w |}.

(** [clearTimeout(t)]: a timer that has fired is no longer pending, and
    clearing it does nothing. *)
Definition clearTimeout (t : nat) (w : World) : World :=
  {| disk := disk w; timeoutId := timeoutId w;
     lastConfigCheck := lastConfigCheck w;
     pending := filter (fun x => negb (Nat.eqb (id x) t)) (pending w);
     nextId := nextId w; awaiting := awaiting w |}.

(** [timeoutId = setTimeout(() => runMonitor(), ms)] *)
Definition setTimeout (ms : number) (w : World) : World :=
  {| disk := disk w; timeoutId := Some (nextId w);
     lastConfigCheck := lastConfigCheck w;
     pending := pending w ++ [{| id := nextId w; delay := ms |}];
     nextId := S (nextId w); awaiting := awaiting w |}.

(** The timers that [if (timeoutId) clearTimeout(timeoutId)] leaves pending. *)
Definition survivors (w : World) : list Timer :=
  match timeoutId w with
  | Some t => pending (clearTimeout t w)
  | None => pending w
  end.

Section Scheduler.
Context {rt : Runtime}.

(** [sevenDaysAgo] after [setDate(getDate() - 7)], for a [new Date()] of
    time value [today]. *)
Definition sevenDaysAgo (today : Z) : Z :=
  Date.setDate LocalTZA today (Date.getDate LocalTZA today - 7).

Definition filteredData (today : Z) (data : list SpeedResult)
  : list SpeedResult :=
  filter (fun d => Date.gt (parseDate (timestamp d))
                           (Some (sevenDaysAgo today))) data.

(** [runMonitor] up to its [await]: the throttled look at the config. *)
Definition runMonitor_begin (now : Z) (w : World) : World :=
  let checked := 10000 <? now - lastConfigCheck w in
  {| disk := if checked then snd (loadConfig (disk w)) else disk w;
     timeoutId := timeoutId w;
     lastConfigCheck := if checked then now else lastConfigCheck w;
     pending := pending w;
     nextId := nextId w;
     awaiting := S (awaiting w) |}.

(** The body of the [try]: runs when [measureSpeed] has returned. *)
Definition persist (result : SpeedResult) (today : Z) (fs : FS) : FS :=
  let data := loadData fs ++ [result] in
  saveData (filteredData today data) fs.

(** The [try] statement as a whole: the [catch] only logs. *)
Definition tryMeasure (o : outcome) (today : Z) (fs : FS) : FS :=
  match o with
  | Measured result => persist result today fs
  | Thrown _ => fs
  end.

(** The rest of [runMonitor], from the return of [await measureSpeed()];
    [today] is the time value of the [new Date()] of the retention step.
    A [timeoutId] that is set is a Timeout object, hence truthy. *)
Definition runMonitor_resume (o : outcome) (today : Z) (w : World) : World :=
  let fs1 := tryMeasure o today (disk w) in
  let (config, fs2) := loadConfig fs1 in
  let w1 := {| disk := fs2; timeoutId := timeoutId w;
               lastConfigCheck := lastConfigCheck w; pending := pending w;
               nextId := nextId w; awaiting := Nat.pred (awaiting w) |} in
  let w2 := match timeoutId w1 with
            | Some t => clearTimeout t w1
            | None => w1
            end in
  setTimeout (intervalMinutes config * 60 * 1000)%Q w2.

(** A call of [runMonitor] from start to end, when nothing else touches the
    disk while the measurement is awaited. *)
Definition runMonitor (now : Z) (o : outcome) (today : Z) (w : World)
  : World :=
  runMonitor_resume o today (runMonitor_begin now w).

(** The statements of the module body.  [argv] is the command line of the
    process, which the module never reads; [t0] and [t1] are the two
    readings of [Date.now()], in the initialiser of [lastConfigCheck] and
    in the first [runMonitor()]. *)
Definition initialConfig (argv : list string) (fs : FS) : Config :=
  fst (loadConfig fs).

Definition main (argv : list string) (t0 t1 : Z) (fs : FS) : World :=
  let w0 := {| disk := snd (loadConfig fs); timeoutId := None;
               lastConfigCheck := t0; pending := []; nextId := 0;
               awaiting := 0 |} in
  runMonitor_begin t1 w0.
End Scheduler.

End SpeedMonitor.

(** ** monitor/api-server.ts *)

Module ApiServer.
Local Open Scope string_scope.
Local Open Scope list_scope.
Local Open Scope Z_scope.

Definition loadConfig (fs : FS) : Config * FS :=
  if negb (existsSync (CONFIG_FILE fs)) then
    let defaultConfig := {| intervalMinutes := 30%Q; others := [] |} in
    (defaultConfig,
     {| DATA_FILE := DATA_FILE fs; CONFIG_FILE := Stored defaultConfig |})
  else match readJSON (CONFIG_FILE fs) with
       | Some config => (config, fs)
       | None => ({| intervalMinutes := 30%Q; others := [] |}, fs)
       end.

(** [saveConfig(config: { intervalMinutes: number })] *)
Definition saveConfig (interval : number) (fs : FS) : FS :=
  {| DATA_FILE := DATA_FILE fs;
     CONFIG_FILE := Stored {| intervalMinutes := interval; others := [] |} |}.

(** The JSON objects the handlers pass to [res.json]. *)
Definition optional (k : string) (v : option string) : list (string * value) :=
  match v with
  | Some s => [(k, Str s)]
  | None => []
  end.

Definition jsonReading (r : SpeedResult) : value :=
  Obj ([("timestamp", Str (timestamp r)); ("download", Num (download r));
        ("upload", Num (upload r)); ("ping", Num (ping r));
        ("jitter", Num (jitter r))]
       ++ optional "server" (server r) ++ optional "isp" (isp r)).

Definition jsonConfig (c : Config) : value :=
  Obj (("intervalMinutes", Num (intervalMinutes c)) :: others c).

Definition jsonError (msg : string) : value := Obj [("error", Str msg)].

Record response : Type := { status : nat; body : value }.

(** [res.json(v)] and [res.status(code).json(v)] *)
Definition json (v : value) : response := {| status := 200; body := v |}.
Definition status_json (code : nat) (v : value) : response :=
  {| status := code; body := v |}.

(** [data[i]] on an array: [undefined] outside its bounds. *)
Definition index {A} (data : list A) (i : Z) : option A :=
  if i <? 0 then None else nth_error data (Z.to_nat i).

(** [app.get('/api/speed-data')] *)
Definition getSpeedData (fs : FS) : response :=
  if negb (existsSync (DATA_FILE fs)) then json (Arr [])
  else match readJSON (DATA_FILE fs) with
       | Some data => json (Arr (map jsonReading data))
       | None => status_json 500 (jsonError "Failed to load data")
       end.

(** [app.get('/api/speed-data/latest')] *)
Definition getLatest (fs : FS) : response :=
  if negb (existsSync (DATA_FILE fs)) then json Null
  else match readJSON (DATA_FILE fs) with
       | Some data =>
           let latest := index data (Z.of_nat (List.length data) - 1) in
           json match latest with
                | Some r => jsonReading r
                | None => Undefined
                end
       | None => status_json 500 (jsonError "Failed to load latest data")
       end.

(** [app.get('/api/config')] *)
Definition getConfig (fs : FS) : response * FS :=
  let (config, fs') := loadConfig fs in
  (json (jsonConfig config), fs').

(** [app.put('/api/config')]; [reqBody] is [req.body]. *)
Definition putConfig (reqBody : value) (fs : FS) : response * FS :=
  match destructure "intervalMinutes" reqBody with
  | None => (status_json 500 (jsonError "Failed to update config"), fs)
  | Some (Num interval) =>
      if ltb interval 1%Q || gtb interval 1440%Q then
        (status_json 400
           (jsonError "Invalid interval (must be 1-1440 minutes)"), fs)
      else
        (json (Obj [("success", Bool true);
                    ("intervalMinutes", Num interval)]),
         saveConfig interval fs)
  | Some _ =>
      (status_json 400
         (jsonError "Invalid interval (must be 1-1440 minutes)"), fs)
  end.

(** [app.delete('/api/speed-data')] *)
Definition deleteSpeedData (fs : FS) : response * FS :=
  (json (Obj [("success", Bool true)]),
   if existsSync (DATA_FILE fs)
   then {| DATA_FILE := Missing; CONFIG_FILE := CONFIG_FILE fs |}
   else fs).

Inductive request : Type :=
| GET_speed_data
| GET_speed_data_latest
| GET_config
| PUT_config (reqBody : value)
| DELETE_speed_data.

Definition handle (req : request) (fs : FS) : response * FS :=
  match req with
  | GET_speed_data => (getSpeedData fs, fs)
  | GET_speed_data_latest => (getLatest fs, fs)
  | GET_config => getConfig fs
  | PUT_config reqBody => putConfig reqBody fs
  | DELETE_speed_data => deleteSpeedData fs
  end.

End ApiServer.

(** ** The dashboard component

    Its interval form and what it selects from the data it has fetched.  The
    averages, which are floating-point sums, and the formatting of dates are
    left out. *)

Module Dashboard.

(** [updateConfig(config)] as [handleIntervalUpdate] calls it, with the config
    [{ intervalMinutes: interval }] of an integer [interval]. *)
Definition updateConfig (interval : Z) : ApiServer.request :=
  ApiServer.PUT_config
    (Obj [("intervalMinutes"%string, Num (inject_Z interval))]).

(** [handleIntervalUpdate]; [interval] is the value of
    [parseInt(intervalInput)], an integer or NaN ([None]).  The result is the
    request sent, if any. *)
Definition handleIntervalUpdate (interval : option Z)
  : option ApiServer.request :=
  match interval with
  | Some i => if (1 <=? i) && (i <=? 1440) then Some (updateConfig i) else None
  | None => None
  end.

Inductive TimeRange : Type :=
| range_24h
| range_7d
| range_all
| range_custom.

Record Slot : Type := { name : string; start : Z; stop : Z }.

(** The [timeSlots] of [timeSlotStats]; [stop] is the [end] of a slot. *)
Definition timeSlots : list Slot :=
  [{| name := "深夜 (00:00-03:00)"; start := 0; stop := 3 |};
   {| name := "早朝 (03:00-06:00)"; start := 3; stop := 6 |};
   {| name := "朝 (06:00-12:00)"; start := 6; stop := 12 |};
   {| name := "昼 (12:00-16:00)"; start := 12; stop := 16 |};
   {| name := "夕方 (16:00-20:00)"; start := 16; stop := 20 |};
   {| name := "夜 (20:00-24:00)"; start := 20; stop := 24 |}]%string.

(** [Math.max(...xs)] and [Math.min(...xs)]; [None] stands for the infinity
    they return on no argument. *)
Definition Math_max (xs : list number) : option number :=
  match xs with
  | [] => None
  | x :: rest => Some (fold_left (fun m y => if ltb m y then y else m) rest x)
  end.

Definition Math_min (xs : list number) : option number :=
  match xs with
  | [] => None
  | x :: rest => Some (fold_left (fun m y => if ltb y m then y else m) rest x)
  end.

(** [xs.indexOf(x)]: the first index whose element is the number [x], or -1;
    an infinity is the element of no index. *)
Fixpoint indexFrom (i : Z) (x : number) (xs : list number) : Z :=
  match xs with
  | [] => -1
  | y :: rest => if Qeq_bool y x then i else indexFrom (i + 1) x rest
  end.

Definition indexOf (x : option number) (xs : list number) : Z :=
  match x with
  | Some v => indexFrom 0 v xs
  | None => -1
  end.

(** The three indices of [peakStats]. *)
Definition maxDownloadIndex (filtered : list SpeedResult) : Z :=
  let downloads := map download filtered in
  indexOf (Math_max downloads) downloads.

Definition maxUploadIndex (filtered : list SpeedResult) : Z :=
  let uploads := map upload filtered in
  indexOf (Math_max uploads) uploads.

Definition minPingIndex (filtered : list SpeedResult) : Z :=
  let pings := map ping filtered in
  indexOf (Math_min pings) pings.

(** Index [i] is within [l], the reading there has the largest (smallest)
    [f] of all, and no reading before it has as large (small) a one. *)
Definition firstLargest (f : SpeedResult -> number) (l : list SpeedResult)
           (i : Z) : Prop :=
  0 <= i < Z.of_nat (List.length l) /\
  exists r, nth_error l (Z.to_nat i) = Some r /\
            (forall d, In d l -> (f d <= f r)%Q) /\
            (forall j d, (j < Z.to_nat i)%nat -> nth_error l j = Some d ->
                         (f d < f r)%Q).

Definition firstSmallest (f : SpeedResult -> number) (l : list SpeedResult)
           (i : Z) : Prop :=
  0 <= i < Z.of_nat (List.length l) /\
  exists r, nth_error l (Z.to_nat i) = Some r /\
            (forall d, In d l -> (f r <= f d)%Q) /\
            (forall j d, (j < Z.to_nat i)%nat -> nth_error l j = Some d ->
                         (f r < f d)%Q).

Section Views.
Context {rt : Runtime}.

(** The [filteredData] of the dashboard, for a [new Date()] of time value
    [now]. *)
Definition filteredData (timeRange : TimeRange) (now : Z)
           (data : list SpeedResult) : list SpeedResult :=
  match timeRange with
  | range_24h =>
      let cutoff := now - 24 * 60 * 60 * 1000 in
      filter (fun d => Date.ge (parseDate (timestamp d)) (Some cutoff)) data
  | range_7d =>
      let cutoff := now - 7 * 24 * 60 * 60 * 1000 in
      filter (fun d => Date.ge (parseDate (timestamp d)) (Some cutoff)) data
  | _ => data
  end.

(** The [slotData] of one slot: a reading whose timestamp is no date has the
    hour NaN and falls in no slot. *)
Definition slotData (slot : Slot) (filtered : list SpeedResult)
  : list SpeedResult :=
  filter (fun d =>
            match parseDate (timestamp d) with
            | Some t =>
                let hour := Date.getHours LocalTZA t in
                (start slot <=? hour) && (hour <? stop slot)
            | None => false
            end) filtered.

(** The [count] of every slot, in the order of [timeSlots]. *)
Definition slotCounts (filtered : list SpeedResult) : list nat :=
  map (fun slot => List.length (slotData slot filtered)) timeSlots.
End Views.

End Dashboard.

(** ** The two processes together

    The scheduler process advances when a pending timer fires (the call of
    [runMonitor] runs up to its [await]) and when a measurement comes back
    (the call runs to its end).  The API server answers requests in between
    and shares the disk. *)

Module System.
Import SpeedMonitor.

(** A single-shot timer leaves the event loop when it fires. *)
Definition expire (t : Timer) (w : World) : World :=
  {| disk := disk w; timeoutId := timeoutId w;
     lastConfigCheck := lastConfigCheck w;
     pending := filter (fun x => negb (Nat.eqb (id x) (id t))) (pending w);
     nextId := nextId w; awaiting := awaiting w |}.

Definition serve (req : ApiServer.request) (w : World) : World :=
  setDisk (snd (ApiServer.handle req (disk w))) w.

(** What every reachable world will be shown to satisfy: a call of
    [runMonitor] under way and a pending timer exclude each other, there is
    at most one of either, and a pending timer is the one [timeoutId] refers
    to. *)
Definition timerInvariant (w : World) : Prop :=
  (awaiting w + List.length (pending w) <= 1)%nat /\
  forall t, In t (pending w) -> timeoutId w = Some (id t).


(** A config file that holds no interval outside 1 to 1440. *)
Definition configInRange (f : file Config) : Prop :=
  match f with
  | Stored c => (1 <= intervalMinutes c <= 1440)%Q
  | _ => True
  end.

(** What [loadConfig] leaves of a config file: a missing one is created. *)
Definition materialised (f : file Config) : file Config :=
  match f with
  | Missing => Stored {| intervalMinutes := 30%Q; others := [] |}
  | _ => f
  end.

(** Timers set to no less than a minute and no more than a day. *)
Definition delaysInRange (timers : list Timer) : Prop :=
  forall t, In t timers -> (60000 <= delay t <= 86400000)%Q.

Section Steps.
Context {rt : Runtime}.

Inductive step : World -> World -> Prop :=
| step_fire (t : Timer) (now : Z) (w : World) :
    In t (pending w) ->
    step w (runMonitor_begin now (expire t w))
| step_measured (o : outcome) (today : Z) (w : World) :
    (0 < awaiting w)%nat ->
    step w (runMonitor_resume o today w)
| step_request (req : ApiServer.request) (w : World) :
    step w (serve req w).

(** The worlds the scheduler can be in, from the start of the process. *)
Inductive reachable : World -> Prop :=
| reachable_main (argv : list string) (t0 t1 : Z) (fs : FS) :
    reachable (main argv t0 t1 fs)
| reachable_step (w w' : World) :
    reachable w -> step w w' -> reachable w'.

(** By how much the offset of the local zone at [today] exceeds the one in
    force when the local clock showed the same time seven days before: zero
    unless daylight saving began or ended in between. *)
Definition zoneShift (today : Z) : Z :=
  LocalTZA today true
  - LocalTZA (today + LocalTZA today true - 7 * Date.msPerDay) false.

(** A reading whose timestamp is a date later than the same local time
    seven days before [today]. *)
Definition fresh (today : Z) (r : SpeedResult) : Prop :=
  exists t, parseDate (timestamp r) = Some t /\
            today - 7 * Date.msPerDay + zoneShift today < t.

(** The worlds the scheduler can be in when the process is started on the
    disk [fs]. *)
Inductive runsFrom (fs : FS) : World -> Prop :=
| runs_main (argv : list string) (t0 t1 : Z) :
    runsFrom fs (main argv t0 t1 fs)
| runs_step (w w' : World) :
    runsFrom fs w -> step w w' -> runsFrom fs w'.

(** One whole cycle whose measurement fails, from the firing of timer [t]. *)
Definition failedCycle (t : Timer) (now today : Z) (error : string)
           (w : World) : World :=
  runMonitor now (Thrown error) today (expire t w).
End Steps.

End System.

(** ** Concrete runs

    Data for running the definitions above. *)

Module Samples.
Import SpeedMonitor.
Local Open Scope string_scope.

(** Node with the clock on UTC, reading timestamps in the format
    [toISOString] writes them in. *)
Definition isoUTC : Runtime :=
  {| parseDate := Date.parseISO; LocalTZA := Date.fixedOffset 0 |}.

(** New York in 2024: four hours behind UTC from 10 March, 07:00 UTC, to
    3 November, 06:00 UTC, five hours otherwise.  A local time that occurs
    twice or not at all is read with the offset before the change. *)
Definition newYork2024 (t : Z) (isUTC : bool) : Z :=
  let summer :=
    if isUTC then ((1710054000000 <=? t) && (t <? 1730613600000))%Z
    else ((1710039600000 <=? t) && (t <? 1730599200000))%Z in
  if summer then (-14400000)%Z else (-18000000)%Z.

Definition isoNewYork : Runtime :=
  {| parseDate := Date.parseISO; LocalTZA := newYork2024 |}.

Definition reading (ts : string) : SpeedResult :=
  {| timestamp := ts; download := 93.42%Q; upload := 37.37%Q;
     ping := 14.5%Q; jitter := 2.25%Q; server := None; isp := None |}.

Definition noon_15_march_2024 : Z := 1710504000000.

(** One second before, exactly at, and one second after seven days before
    [noon_15_march_2024]. *)
Definition threeReadings : list SpeedResult :=
  [reading "2024-03-08T11:59:59.000Z";
   reading "2024-03-08T12:00:00.000Z";
   reading "2024-03-08T12:00:01.000Z"].

(** The interval set to thirty minutes from the dashboard, with no history
    yet, and the same with a history file that is not JSON. *)
Definition disk30 : FS :=
  {| DATA_FILE := Missing;
     CONFIG_FILE := Stored {| intervalMinutes := 30%Q; others := [] |} |}.

Definition corruptDisk : FS :=
  {| DATA_FILE := Corrupt "[{ timestamp"; CONFIG_FILE := CONFIG_FILE disk30 |}.

(** The scheduler just started on [fs], waiting for its first measurement. *)
Definition started (fs : FS) : World :=
  SpeedMonitor.main [] 0 0 fs.

(** The first cycle on [disk30] fails and arms timer 0 for thirty minutes;
    [fired] is the world at the moment that timer goes off. *)
Definition firstCycle : World :=
  runMonitor_resume (rt := isoUTC) (Thrown "timeout") 1000 (started disk30).

Definition fired : World :=
  System.expire {| id := 0; delay := 1800000%Q |} firstCycle.

(** A stored config that carries a [method] beside the interval, and a
    request body that does so too. *)
Definition diskWithMethod : FS :=
  {| DATA_FILE := Missing;
     CONFIG_FILE := Stored {| intervalMinutes := 30%Q;
                              others := [("method", Str "ookla")] |} |}.

Definition bodyWithMethod : value :=
  Obj [("intervalMinutes", Num 5%Q); ("method", Str "netflix")].

(** A history of two readings, both within seven days of
    [noon_15_march_2024], and the scheduler waiting on it. *)
Definition twoReadings : list SpeedResult :=
  [reading "2024-03-14T09:00:00.000Z"; reading "2024-03-15T03:30:00.000Z"].

Definition diskTwo : FS :=
  {| DATA_FILE := Stored twoReadings; CONFIG_FILE := CONFIG_FILE disk30 |}.

Definition freshReading : SpeedResult := reading "2024-03-15T11:59:58.000Z".

(** The same history with the interval set to five minutes. *)
Definition diskFive : FS :=
  {| DATA_FILE := Stored twoReadings;
     CONFIG_FILE := Stored {| intervalMinutes := 5%Q; others := [] |} |}.

(** Three readings of different speeds. *)
Definition measured (ts : string) (down up latency : number) : SpeedResult :=
  {| timestamp := ts; download := down; upload := up; ping := latency;
     jitter := 2.25%Q; server := None; isp := None |}.

Definition variedReadings : list SpeedResult :=
  [measured "2024-03-14T09:00:00.000Z" 80 30.5 20;
   measured "2024-03-14T21:00:00.000Z" 95.5 28 12;
   measured "2024-03-15T03:30:00.000Z" 95.5 41 12]%Q.

Definition corruptHistory : FS :=
  {| DATA_FILE := Corrupt "[{"; CONFIG_FILE := Missing |}.

End Samples.

(** * Properties *)

(** ** Dates *)

Module DateFacts.
Import Date.
Local Open Scope string_scope.
Local Open Scope Z_scope.

Lemma filter_no_longer {A} (f : A -> bool) (l : list A) :
  (List.length (filter f l) <= List.length l)%nat.
Proof.
  induction l as [|a l IH]; simpl; [lia|].
  destruct (f a); simpl; lia.
Qed.

Lemma MonthFromTime_range (t : Z) : 0 <= MonthFromTime t <= 11.
Proof.
  unfold MonthFromTime.
  match goal with
  | |- context [filter ?f ?l] => pose proof (filter_no_longer f l) as Hlen
  end.
  simpl List.length in Hlen at 2. lia.
Qed.

Lemma DayFromYear_shift (y k : Z) :
  DayFromYear (y + 400 * k) = DayFromYear y + 146097 * k.
Proof.
  unfold DayFromYear.
  replace (y + 400 * k - 1969) with (y - 1969 + (100 * k) * 4) by lia.
  replace (y + 400 * k - 1901) with (y - 1901 + (4 * k) * 100) by lia.
  replace (y + 400 * k - 1601) with (y - 1601 + k * 400) by lia.
  rewrite !Z.div_add by lia. lia.
Qed.

(** The search stops at a year that has begun, and short of its bound only
    where the next year has not. *)
Lemma yearSearch_spec (n : nat) (d : Z) :
  forall y,
    DayFromYear y <= d ->
    DayFromYear (yearSearch n y d) <= d /\
    (d < DayFromYear (yearSearch n y d + 1) \/
     yearSearch n y d = y + Z.of_nat n).
Proof.
  induction n as [|k IH]; intros y Hy.
  - simpl. split; [exact Hy | right; lia].
  - cbn [yearSearch].
    destruct (DayFromYear (y + 1) <=? d) eqn:Hnext.
    + apply Z.leb_le in Hnext.
      destruct (IH (y + 1) Hnext) as [Hle [Hlt | Heq]].
      * split; [exact Hle | left; exact Hlt].
      * split; [exact Hle | right; lia].
    + apply Z.leb_gt in Hnext. split; [exact Hy | left; exact Hnext].
Qed.

(** [YearFromDay] is the year of ECMA-262: the one whose first day is not
    after [d] while that of the next year is. *)
Lemma YearFromDay_spec (d : Z) :
  DayFromYear (YearFromDay d) <= d < DayFromYear (YearFromDay d + 1).
Proof.
  assert (146097 <> 0) as Hne by lia.
  assert (0 < 146097) as Hpos by lia.
  pose proof (Z.div_mod d 146097 Hne) as Hdm.
  pose proof (Z.mod_pos_bound d 146097 Hpos) as Hb.
  unfold YearFromDay.
  set (k := d / 146097) in *.
  assert (DayFromYear (1970 + 400 * k) = 146097 * k) as Hbase
    by (rewrite DayFromYear_shift; reflexivity).
  assert (DayFromYear (1970 + 400 * k) <= d) as Hle by lia.
  destruct (yearSearch_spec 400 d _ Hle) as [Hfound [Hlt | Hend]].
  - split; assumption.
  - exfalso. rewrite Hend in Hfound.
    replace (1970 + 400 * k + Z.of_nat 400) with (1970 + 400 * (k + 1))
      in Hfound by lia.
    rewrite DayFromYear_shift in Hfound.
    change (DayFromYear 1970) with 0 in Hfound. lia.
Qed.

Example leap_day_2024 :
  let t := 1709208000000 in
  (YearFromTime t, MonthFromTime t, DateFromTime t) = (2024, 1, 29).
Proof. reflexivity. Qed.

Example last_day_of_1969 :
  (YearFromTime (-1), MonthFromTime (-1), DateFromTime (-1)) = (1969, 11, 31).
Proof. reflexivity. Qed.

(** Seven days back from 3 March 2100 is 24 February: 2100 is no leap year. *)
Example setDate_across_february :
  parseISO "2100-03-03T08:30:00.000Z" = Some 4107745800000 /\
  setDate (fixedOffset 32400000) 4107745800000
    (getDate (fixedOffset 32400000) 4107745800000 - 7)
  = 4107745800000 - 7 * msPerDay /\
  parseISO "2100-02-24T08:30:00.000Z" = Some (4107745800000 - 7 * msPerDay).
Proof. repeat split. Qed.

(** A month number in range is its own year-relative month. *)
Lemma MakeDay_in_year (y m date : Z) :
  0 <= m <= 11 ->
  MakeDay y m date = DayFromYear y + monthStart m (isLeap y) + date - 1.
Proof.
  intros Hm. unfold MakeDay.
  rewrite (Z.div_small m 12), (Z.mod_small m 12) by lia.
  now rewrite Z.add_0_r.
Qed.

(** Moving the day of the month moves the local time by whole days: the
    result is the instant at which the local clock shows that time. *)
Lemma setDate_getDate (tz : Z -> bool -> Z) (t k : Z) :
  setDate tz t (getDate tz t - k) = UTC tz (LocalTime tz t - k * msPerDay).
Proof.
  unfold setDate, getDate. f_equal.
  set (lt := LocalTime tz t).
  rewrite MakeDay_in_year by apply MonthFromTime_range.
  unfold DateFromTime, DayWithinYear, InLeapYear, MakeDate.
  unfold Day, TimeWithinDay.
  pose proof (Z.div_mod lt msPerDay) as Hdm.
  assert (msPerDay <> 0) as Hne by (unfold msPerDay; lia).
  specialize (Hdm Hne). nia.
Qed.

End DateFacts.

(** ** The scheduler *)

Module MonitorFacts.
Import SpeedMonitor System Samples.
Local Open Scope string_scope.
Local Open Scope list_scope.
Local Open Scope Z_scope.

Section WithRuntime.
Context {rt : Runtime}.

(** The cutoff of the retention step: the instant at which the local clock
    showed the time it shows at [today], seven days before. *)
Lemma sevenDaysAgo_eq (today : Z) :
  sevenDaysAgo today = today - 7 * Date.msPerDay + zoneShift today.
Proof.
  unfold sevenDaysAgo. rewrite DateFacts.setDate_getDate.
  unfold zoneShift, Date.UTC, Date.LocalTime. lia.
Qed.

(** Where the offset of the zone never changes the shift is zero. *)
Lemma zoneShift_fixed (offset today : Z) :
  (forall t isUTC, LocalTZA t isUTC = offset) -> zoneShift today = 0.
Proof. intros Hfixed. unfold zoneShift. rewrite !Hfixed. lia. Qed.

Lemma kept_iff (today : Z) (r : SpeedResult) :
  Date.gt (parseDate (timestamp r)) (Some (sevenDaysAgo today)) = true <->
  exists t, parseDate (timestamp r) = Some t /\
            today - 7 * Date.msPerDay + zoneShift today < t.
Proof.
  rewrite sevenDaysAgo_eq. unfold Date.gt.
  destruct (parseDate (timestamp r)) as [t|].
  - rewrite Z.ltb_lt. split.
    + intros H. exists t. auto.
    + intros [t' [Ht' H]]. injection Ht' as <-. exact H.
  - split; [discriminate|]. intros [t' [Ht' _]]. discriminate.
Qed.
End WithRuntime.




(** The same moment in New York, a few days after the clocks went forward:
    the cutoff is an hour later than seven times 24 hours before, and a
    reading six days, 23 hours and 30 minutes old is removed. *)
Example cutoff_after_spring_forward :
  sevenDaysAgo (rt := isoNewYork) noon_15_march_2024 = 1709902800000 /\
  sevenDaysAgo (rt := isoUTC) noon_15_march_2024 = 1709899200000 /\
  filteredData (rt := isoNewYork) noon_15_march_2024
    [reading "2024-03-08T12:30:00.000Z"; reading "2024-03-08T13:00:01.000Z"]
  = [reading "2024-03-08T13:00:01.000Z"].
Proof. repeat split; vm_compute; reflexivity. Qed.

Section Cycle.
Context {rt : Runtime}.

Lemma loadConfig_DATA_FILE (fs : FS) :
  DATA_FILE (snd (loadConfig fs)) = DATA_FILE fs.
Proof. unfold loadConfig. now destruct (CONFIG_FILE fs). Qed.

(** What [loadConfig] returns depends on the config file alone. *)
Lemma loadConfig_ext (fs fs' : FS) :
  CONFIG_FILE fs = CONFIG_FILE fs' ->
  fst (loadConfig fs) = fst (loadConfig fs').
Proof. unfold loadConfig. intros ->. now destruct (CONFIG_FILE fs'). Qed.

(** A second [loadConfig] returns what the first did. *)
Lemma loadConfig_again (fs : FS) :
  fst (loadConfig (snd (loadConfig fs))) = fst (loadConfig fs).
Proof.
  unfold loadConfig at 2 3.
  destruct (CONFIG_FILE fs) eqn:E; simpl;
    unfold loadConfig; simpl; try rewrite E; reflexivity.
Qed.

Lemma loadConfig_Stored (fs : FS) (c : Config) :
  CONFIG_FILE fs = Stored c -> loadConfig fs = (c, fs).
Proof. unfold loadConfig. now intros ->. Qed.

Lemma tryMeasure_CONFIG_FILE (o : outcome) (today : Z) (fs : FS) :
  CONFIG_FILE (tryMeasure o today fs) = CONFIG_FILE fs.
Proof. now destruct o. Qed.

Lemma begin_DATA_FILE (now : Z) (w : World) :
  DATA_FILE (disk (runMonitor_begin now w)) = DATA_FILE (disk w).
Proof.
  unfold runMonitor_begin. simpl.
  destruct (10000 <? now - lastConfigCheck w); [apply loadConfig_DATA_FILE | reflexivity].
Qed.

Lemma begin_loadConfig (now : Z) (w : World) :
  fst (loadConfig (disk (runMonitor_begin now w))) = fst (loadConfig (disk w)).
Proof.
  unfold runMonitor_begin. simpl.
  destruct (10000 <? now - lastConfigCheck w); [apply loadConfig_again | reflexivity].
Qed.

(** The end of a cycle, field by field. *)
Lemma resume_fields (o : outcome) (today : Z) (w : World) :
  let fs1 := tryMeasure o today (disk w) in
  let w' := runMonitor_resume o today w in
  disk w' = snd (loadConfig fs1) /\
  timeoutId w' = Some (nextId w) /\
  pending w' =
    survivors w ++
    [{| id := nextId w;
        delay := (intervalMinutes (fst (loadConfig fs1)) * 60 * 1000)%Q |}] /\
  nextId w' = S (nextId w) /\
  awaiting w' = Nat.pred (awaiting w) /\
  lastConfigCheck w' = lastConfigCheck w.
Proof.
  unfold runMonitor_resume, survivors. simpl.
  destruct (loadConfig (tryMeasure o today (disk w))) as [config fs2].
  simpl. destruct (timeoutId w); simpl; repeat split; reflexivity.
Qed.

(** The end of a cycle whose measurement threw. *)
Lemma failed_resume (e : string) (today : Z) (w : World) :
  let w' := runMonitor_resume (Thrown e) today w in
  DATA_FILE (disk w') = DATA_FILE (disk w) /\
  timeoutId w' = Some (nextId w) /\
  pending w' =
    survivors w ++
    [{| id := nextId w;
        delay := (intervalMinutes (fst (loadConfig (disk w))) * 60 * 1000)%Q |}] /\
  nextId w' = S (nextId w) /\
  fst (loadConfig (disk w')) = fst (loadConfig (disk w)).
Proof.
  intros w'.
  destruct (resume_fields (Thrown e) today w) as (Hd & Hid & Hp & Hn & _).
  fold w' in Hd, Hid, Hp, Hn. cbn [tryMeasure] in Hd, Hp.
  repeat split; try assumption.
  - rewrite Hd. apply loadConfig_DATA_FILE.
  - rewrite Hd. apply loadConfig_again.
Qed.

End Cycle.

(** C2.  The timer armed at the end of a cycle carries the interval that
    [loadConfig] reads after the [try] statement, that is, from the config file
    as it is once the history has been saved, whatever the config was when
    the cycle began.  In particular, if [PUT /api/config] sets the interval
    to [i] minutes while the measurement is under way, the timer armed next
    is set to [i * 60 * 1000] milliseconds. *)
Theorem rearm_reads_config_after_persist
  {rt : Runtime} (w : World) (now today : Z) (o : outcome) (i : Z) :
  (let saved := tryMeasure o today (disk w) in
   CONFIG_FILE saved = CONFIG_FILE (disk w) /\
   pending (runMonitor_resume o today w) =
     survivors w
     ++ [{| id := nextId w;
            delay := (intervalMinutes (fst (loadConfig saved)) * 60 * 1000)%Q |}]) /\
  (1 <= i <= 1440 ->
   let begun := runMonitor_begin now w in
   let updated := serve (Dashboard.updateConfig i) begun in
   let ended := runMonitor_resume o today updated in
   timeoutId ended = Some (nextId w) /\
   pending ended =
     survivors begun
     ++ [{| id := nextId w; delay := inject_Z (i * 60 * 1000) |}]).
Proof.
  split.
  { split; [apply tryMeasure_CONFIG_FILE|].
    now destruct (resume_fields o today w) as (_ & _ & Hp & _). }
  intros Hi begun updated ended.
  destruct (resume_fields o today updated) as (_ & Hid & Hp & _).
  fold ended in Hid, Hp. split; [exact Hid|].
  rewrite Hp. clear Hid Hp.
  assert (CONFIG_FILE (disk updated)
          = Stored {| intervalMinutes := inject_Z i; others := [] |}) as Hc.
  { unfold updated, serve, Dashboard.updateConfig. simpl.
    unfold ApiServer.putConfig. simpl.
    unfold ltb, gtb, ltb, Qle_bool. simpl.
    rewrite Z.mul_1_r.
    replace (i <=? 1440) with true by (symmetry; apply Z.leb_le; lia).
    replace (1 <=? i) with true by (symmetry; apply Z.leb_le; lia).
    destruct i; reflexivity. }
  rewrite (loadConfig_ext _ (disk updated))
    by apply tryMeasure_CONFIG_FILE.
  rewrite (loadConfig_Stored _ _ Hc). simpl.
  reflexivity.
Qed.

Lemma rearm_reads_config_after_persist_witness :
  let begun := runMonitor_begin 1801000 fired in
  let ended := runMonitor_resume (rt := isoUTC) (Thrown "timeout") 1802000
                 (serve (Dashboard.updateConfig 5) begun) in
  pending firstCycle = [{| id := 0; delay := 1800000%Q |}] /\
  intervalMinutes (fst (loadConfig (disk begun))) = 30%Q /\
  timeoutId ended = Some 1%nat /\
  pending ended = [{| id := 1; delay := 300000%Q |}].
Proof.
  split; [reflexivity|]. split; [reflexivity|].
  apply (proj2 (rearm_reads_config_after_persist
                  (rt := isoUTC) fired 1801000 1802000 (Thrown "timeout") 5)).
  lia.
Defined.

(** C3.  A cycle whose measurement throws leaves the history file as it was
    and still arms the next timer, set to the configured interval: the
    [intervalMinutes] the config file holds, or 30 when the file is missing
    or is not JSON, times 60000 milliseconds.  The same holds of a second
    failing cycle started by that timer. *)
Theorem failed_cycles_keep_history
  {rt : Runtime} (w : World) (e1 e2 : string) (today1 now2 today2 : Z) :
  let minutes := match CONFIG_FILE (disk w) with
                 | Stored c => intervalMinutes c
                 | _ => 30%Q
                 end in
  let t1 := {| id := nextId w; delay := (minutes * 60 * 1000)%Q |} in
  let t2 := {| id := S (nextId w); delay := (minutes * 60 * 1000)%Q |} in
  let w1 := runMonitor_resume (Thrown e1) today1 w in
  let w2 := failedCycle t1 now2 today2 e2 w1 in
  (DATA_FILE (disk w1) = DATA_FILE (disk w) /\
   timeoutId w1 = Some (id t1) /\
   pending w1 = survivors w ++ [t1]) /\
  (DATA_FILE (disk w2) = DATA_FILE (disk w) /\
   timeoutId w2 = Some (id t2) /\
   pending w2 = survivors (expire t1 w1) ++ [t2]).
Proof.
  intros minutes t1 t2 w1 w2.
  assert (intervalMinutes (fst (loadConfig (disk w))) = minutes) as Hmin.
  { unfold minutes, loadConfig. now destruct (CONFIG_FILE (disk w)). }
  destruct (failed_resume e1 today1 w) as (Hd1 & Hid1 & Hp1 & Hn1 & Hc1).
  fold w1 in Hd1, Hid1, Hp1, Hn1, Hc1. rewrite Hmin in Hp1.
  split; [now repeat split|].
  pose (b := runMonitor_begin now2 (expire t1 w1)).
  destruct (failed_resume e2 today2 b) as (Hd2 & Hid2 & Hp2 & _).
  change (runMonitor_resume (Thrown e2) today2 b) with w2 in Hd2, Hid2, Hp2.
  assert (nextId b = S (nextId w)) as Hn by exact Hn1.
  assert (fst (loadConfig (disk b)) = fst (loadConfig (disk w))) as Hc2.
  { unfold b. rewrite begin_loadConfig. exact Hc1. }
  assert (DATA_FILE (disk b) = DATA_FILE (disk w)) as Hdb.
  { unfold b. rewrite begin_DATA_FILE. exact Hd1. }
  rewrite Hn, Hc2, Hmin in Hp2. rewrite Hn in Hid2. rewrite Hdb in Hd2.
  repeat split; assumption.
Qed.

Lemma failed_cycles_keep_history_witness :
  let w := started diskFive in
  let w1 := runMonitor_resume (rt := isoUTC) (Thrown "timeout") 1000 w in
  let w2 := failedCycle (rt := isoUTC) {| id := 0; delay := 300000%Q |}
              301000 302000 "Speedtest CLI not installed" w1 in
  CONFIG_FILE (disk w)
    = Stored {| intervalMinutes := 5%Q; others := [] |} /\
  (DATA_FILE (disk w1) = Stored twoReadings /\
   pending w1 = [{| id := 0; delay := 300000%Q |}]) /\
  (DATA_FILE (disk w2) = Stored twoReadings /\
   pending w2 = [{| id := 1; delay := 300000%Q |}]).
Proof.
  split; [reflexivity|].
  destruct (failed_cycles_keep_history (rt := isoUTC) (started diskFive)
              "timeout" "Speedtest CLI not installed" 1000 301000 302000)
    as [(Hd1 & _ & Hp1) (Hd2 & _ & Hp2)].
  split; split; assumption.
Defined.

(** C6.  [loadData] returns the empty array both when the history file is
    missing and when its content is not JSON; and after such a read a cycle
    that measures [r], a reading that lies within the seven days (counted as
    the retention step counts them, in any time zone), leaves a history file
    holding exactly [r]. *)
Theorem corrupt_history_then_append
  {rt : Runtime} (w : World) (text : string) (cfg : file Config)
  (r : SpeedResult) (today t : Z) :
  DATA_FILE (disk w) = Corrupt text ->
  parseDate (timestamp r) = Some t ->
  today - 7 * Date.msPerDay + zoneShift today < t ->
  loadData {| DATA_FILE := Missing; CONFIG_FILE := cfg |} = [] /\
  loadData (disk w) = [] /\
  DATA_FILE (disk (runMonitor_resume (Measured r) today w)) = Stored [r] /\
  loadData (disk (runMonitor_resume (Measured r) today w)) = [r].
Proof.
  intros Hcorrupt Hts Hnew.
  assert (loadData (disk w) = []) as Hload
    by (unfold loadData; now rewrite Hcorrupt).
  assert (DATA_FILE (disk (runMonitor_resume (Measured r) today w))
          = Stored [r]) as Hfile.
  { destruct (resume_fields (Measured r) today w) as (Hd & _).
    cbv zeta in Hd. rewrite Hd, loadConfig_DATA_FILE.
    unfold tryMeasure, persist, saveData. simpl.
    rewrite Hload. simpl.
    replace (Date.gt (parseDate (timestamp r)) (Some (sevenDaysAgo today)))
      with true; [reflexivity|].
    symmetry. apply kept_iff. exists t. auto. }
  repeat split; try assumption.
  unfold loadData. now rewrite Hfile.
Qed.

Lemma corrupt_history_then_append_witness :
  let r := reading "2024-03-15T11:59:58.000Z" in
  let w := started corruptDisk in
  loadData (disk w) = [] /\
  DATA_FILE (disk (runMonitor_resume (rt := isoUTC) (Measured r)
                     noon_15_march_2024 w)) = Stored [r].
Proof.
  destruct (corrupt_history_then_append
              (rt := isoUTC) (started corruptDisk) "[{ timestamp"
              Missing (reading "2024-03-15T11:59:58.000Z")
              noon_15_march_2024 1710503998000)
    as (_ & H1 & H2 & _).
  - reflexivity.
  - reflexivity.
  - reflexivity.
  - split; [exact H1 | exact H2].
Defined.

Section Timers.
Context {rt : Runtime}.

Lemma survivors_nil (w : World) : timerInvariant w -> survivors w = [].
Proof.
  intros [Hlen Hown]. unfold survivors, clearTimeout. simpl.
  destruct (pending w) as [|t [|t' rest]].
  - now destruct (timeoutId w).
  - rewrite (Hown t (or_introl eq_refl)). simpl.
    now rewrite Nat.eqb_refl.
  - simpl in Hlen. lia.
Qed.

Lemma timerInvariant_main (argv : list string) (t0 t1 : Z) (fs : FS) :
  timerInvariant (main argv t0 t1 fs).
Proof. split; simpl; [lia | tauto]. Qed.

Lemma timerInvariant_step (w w' : World) :
  timerInvariant w -> step w w' -> timerInvariant w'.
Proof.
  intros Hinv Hstep. pose proof Hinv as [Hlen Hown].
  destruct Hstep as [t now w Hin | o today w Haw | req w].
  - destruct (pending w) as [|t0 [|t' rest]] eqn:Hp;
      [destruct Hin | | simpl in Hlen; lia].
    destruct Hin as [<- | []]. simpl in Hlen.
    split; simpl; rewrite Hp; simpl; rewrite Nat.eqb_refl; simpl;
      [lia | tauto].
  - destruct (resume_fields o today w) as (_ & Hid & Hpend & _ & Haw' & _).
    rewrite (survivors_nil w Hinv) in Hpend.
    split.
    + rewrite Haw', Hpend. simpl. lia.
    + rewrite Hpend, Hid. intros t [<- | []]. reflexivity.
  - exact Hinv.
Qed.

Lemma reachable_timerInvariant (w : World) :
  reachable w -> timerInvariant w.
Proof.
  induction 1 as [argv t0 t1 fs | w w' _ IH Hstep].
  - apply timerInvariant_main.
  - exact (timerInvariant_step w w' IH Hstep).
Qed.
End Timers.

(** C7.  In every world the scheduler can reach at most one timer is pending;
    and wherever [runMonitor] comes to its end there, it cancels the timer
    still pending before it arms the new one, which is then the only one. *)
Theorem at_most_one_pending_timer {rt : Runtime} (w : World) :
  reachable w ->
  (List.length (pending w) <= 1)%nat /\
  forall o today,
    exists ms, pending (runMonitor_resume o today w)
               = [{| id := nextId w; delay := ms |}].
Proof.
  intros Hr. apply reachable_timerInvariant in Hr.
  split.
  - destruct Hr as [Hlen _]. lia.
  - intros o today.
    destruct (resume_fields o today w) as (_ & _ & Hpend & _).
    rewrite (survivors_nil w Hr) in Hpend.
    eexists. exact Hpend.
Qed.

Lemma at_most_one_pending_timer_witness :
  pending firstCycle = [{| id := 0; delay := 1800000%Q |}] /\
  (List.length (pending firstCycle) <= 1)%nat /\
  forall o today,
    exists ms, pending (runMonitor_resume (rt := isoUTC) o today firstCycle)
               = [{| id := 1; delay := ms |}].
Proof.
  split; [reflexivity|].
  apply (at_most_one_pending_timer (rt := isoUTC) firstCycle).
  apply (reachable_step (started disk30)).
  - apply reachable_main.
  - apply (step_measured (Thrown "timeout") 1000 (started disk30)).
    simpl. lia.
Defined.

(** C8 at the command line the README gives, [npm run monitor 10], on a
    config of thirty minutes: the module body does not read the argument, so
    the scheduler starts with thirty minutes, leaves the config file at
    thirty, and arms its first timer for thirty minutes, not ten. *)
Theorem command_line_interval_ignored :
  let w := main ["10"] 0 0 disk30 in
  intervalMinutes (initialConfig ["10"] disk30) = 30%Q /\
  ~ (intervalMinutes (initialConfig ["10"] disk30) == 10)%Q /\
  CONFIG_FILE (disk w) = CONFIG_FILE disk30 /\
  pending (runMonitor_resume (rt := isoUTC) (Thrown "timeout") 1000 w)
    = [{| id := 0; delay := 1800000%Q |}] /\
  pending (runMonitor_resume (rt := isoUTC) (Thrown "timeout") 1000 w)
    <> [{| id := 0; delay := 600000%Q |}].
Proof.
  repeat split; intros H; discriminate H.
Qed.

End MonitorFacts.

(** ** The API server *)

Module ApiFacts.
Import ApiServer Samples.
Local Open Scope string_scope.
Local Open Scope list_scope.
Local Open Scope Z_scope.

(** The two processes read the config with the same function. *)
Lemma loadConfig_shared : ApiServer.loadConfig = SpeedMonitor.loadConfig.
Proof. reflexivity. Qed.

Lemma ltb_inject_Z (a b : Z) : ltb (inject_Z a) (inject_Z b) = (a <? b).
Proof.
  unfold ltb, Qle_bool. simpl. rewrite !Z.mul_1_r.
  rewrite Z.ltb_antisym. reflexivity.
Qed.

(** The range check of [PUT /api/config] on an integer. *)
Lemma range_check (i : Z) :
  ltb (inject_Z i) 1%Q || gtb (inject_Z i) 1440%Q = (i <? 1) || (1440 <? i).
Proof.
  unfold gtb.
  change 1%Q with (inject_Z 1). change 1440%Q with (inject_Z 1440).
  now rewrite !ltb_inject_Z.
Qed.

(** C5.  [loadConfig], in the monitor and in the API server alike: when the
    config file is missing it writes the default of 30 minutes and returns
    it; when the file is not JSON it returns the default and leaves the file
    as it is. *)
Theorem loadConfig_defaults (history : file (list SpeedResult)) (text : string) :
  let defaultConfig := {| intervalMinutes := 30%Q; others := [] |} in
  let absent := {| DATA_FILE := history; CONFIG_FILE := Missing |} in
  let corrupt := {| DATA_FILE := history; CONFIG_FILE := Corrupt text |} in
  let created := {| DATA_FILE := history;
                    CONFIG_FILE := Stored defaultConfig |} in
  SpeedMonitor.loadConfig absent = (defaultConfig, created) /\
  SpeedMonitor.loadConfig corrupt = (defaultConfig, corrupt) /\
  ApiServer.loadConfig absent = (defaultConfig, created) /\
  ApiServer.loadConfig corrupt = (defaultConfig, corrupt).
Proof. repeat split. Qed.

(** C4.  A [PUT /api/config] whose [intervalMinutes] is the integer [i]:
    outside 1 to 1440 it is answered with 400 and the disk is untouched, so
    that [loadConfig] returns afterwards what it returned before; within 1 to
    1440 it is answered with 200 and the interval is stored. *)
Theorem putConfig_validates (reqBody : value) (i : Z) (fs : FS) :
  destructure "intervalMinutes" reqBody = Some (Num (inject_Z i)) ->
  let res := fst (putConfig reqBody fs) in
  let fs' := snd (putConfig reqBody fs) in
  (i < 1 \/ 1440 < i ->
   status res = 400%nat /\ fs' = fs /\
   ApiServer.loadConfig fs' = ApiServer.loadConfig fs /\
   SpeedMonitor.loadConfig fs' = SpeedMonitor.loadConfig fs) /\
  (1 <= i <= 1440 ->
   status res = 200%nat /\
   DATA_FILE fs' = DATA_FILE fs /\
   fst (ApiServer.loadConfig fs')
     = {| intervalMinutes := inject_Z i; others := [] |} /\
   fst (SpeedMonitor.loadConfig fs')
     = {| intervalMinutes := inject_Z i; others := [] |}).
Proof.
  intros Hbody res fs'. subst res fs'.
  unfold putConfig. rewrite Hbody, range_check.
  split.
  - intros Hout.
    replace ((i <? 1) || (1440 <? i)) with true; [now repeat split|].
    symmetry. apply orb_true_iff. rewrite !Z.ltb_lt. exact Hout.
  - intros Hin.
    replace ((i <? 1) || (1440 <? i)) with false; [now repeat split|].
    symmetry. apply orb_false_iff. rewrite !Z.ltb_ge. lia.
Qed.

Lemma putConfig_validates_witness :
  (status (fst (putConfig (Obj [("intervalMinutes", Num 1441%Q)]) disk30))
     = 400%nat /\
   snd (putConfig (Obj [("intervalMinutes", Num 1441%Q)]) disk30) = disk30) /\
  (status (fst (putConfig bodyWithMethod disk30)) = 200%nat /\
   fst (ApiServer.loadConfig (snd (putConfig bodyWithMethod disk30)))
     = {| intervalMinutes := 5%Q; others := [] |}).
Proof.
  split.
  - destruct (putConfig_validates
                (Obj [("intervalMinutes", Num 1441%Q)]) 1441 disk30 eq_refl)
      as [Hout _].
    destruct Hout as (H1 & H2 & _); [lia|]. split; [exact H1 | exact H2].
  - destruct (putConfig_validates bodyWithMethod 5 disk30 eq_refl)
      as [_ Hin].
    destruct Hin as (H1 & _ & H2 & _); [lia|]. split; [exact H1 | exact H2].
Defined.

(** C10.  Whenever [PUT /api/config] answers 200, the config file afterwards
    holds the interval of the request and nothing else: no property of the
    record stored before, and none other of the request, is kept. *)
Theorem putConfig_stores_interval_only (reqBody : value) (fs : FS) :
  status (fst (putConfig reqBody fs)) = 200%nat ->
  exists interval,
    destructure "intervalMinutes" reqBody = Some (Num interval) /\
    CONFIG_FILE (snd (putConfig reqBody fs))
      = Stored {| intervalMinutes := interval; others := [] |} /\
    fst (getConfig (snd (putConfig reqBody fs)))
      = json (Obj [("intervalMinutes", Num interval)]).
Proof.
  unfold putConfig.
  destruct (destructure "intervalMinutes" reqBody) as [v|]; [|discriminate].
  destruct v as [ | | b | interval | str | items | fields]; try discriminate.
  destruct (ltb interval 1%Q || gtb interval 1440%Q); [discriminate|].
  intros _. exists interval. repeat split.
Qed.

Lemma putConfig_stores_interval_only_witness :
  lookup "method" (others (fst (ApiServer.loadConfig diskWithMethod)))
    = Str "ookla" /\
  exists interval,
    destructure "intervalMinutes" bodyWithMethod = Some (Num interval) /\
    CONFIG_FILE (snd (putConfig bodyWithMethod diskWithMethod))
      = Stored {| intervalMinutes := interval; others := [] |} /\
    fst (getConfig (snd (putConfig bodyWithMethod diskWithMethod)))
      = json (Obj [("intervalMinutes", Num interval)]).
Proof.
  split; [reflexivity|].
  apply (putConfig_stores_interval_only bodyWithMethod diskWithMethod).
  reflexivity.
Defined.

(** [GET /api/speed-data/latest] where it does return the latest reading or
    null: a history file that is missing, and one that holds a reading. *)
Lemma getLatest_missing (cfg : file Config) :
  getLatest {| DATA_FILE := Missing; CONFIG_FILE := cfg |} = json Null.
Proof. reflexivity. Qed.

Lemma getLatest_last (cfg : file Config) (earlier : list SpeedResult)
      (r : SpeedResult) :
  getLatest {| DATA_FILE := Stored (earlier ++ [r]); CONFIG_FILE := cfg |}
  = json (jsonReading r).
Proof.
  unfold getLatest, index. simpl.
  rewrite length_app. simpl.
  replace (Z.of_nat (List.length earlier + 1) - 1 <? 0) with false
    by (symmetry; apply Z.ltb_ge; lia).
  replace (Z.to_nat (Z.of_nat (List.length earlier + 1) - 1))
    with (List.length earlier + 0)%nat by lia.
  rewrite nth_error_app2 by lia.
  replace (List.length earlier + 0 - List.length earlier)%nat with 0%nat by lia.
  reflexivity.
Qed.

(** C9 at a history file that holds the empty array: the handler passes
    [undefined], not [null], to [res.json]. *)
Theorem getLatest_empty_array (cfg : file Config) :
  let res := getLatest {| DATA_FILE := Stored []; CONFIG_FILE := cfg |} in
  res = json Undefined /\ body res <> Null.
Proof. split; [reflexivity | discriminate]. Qed.

End ApiFacts.

(** ** More on the scheduler *)

Module MonitorExtras.
Import SpeedMonitor System Samples.
Local Open Scope string_scope.
Local Open Scope list_scope.
Local Open Scope Z_scope.

Lemma filter_filter_implied {A} (f g : A -> bool) (l : list A) :
  (forall x, f x = true -> g x = true) ->
  filter f (filter g l) = filter f l.
Proof.
  intros Himp. induction l as [|a l IH]; [reflexivity|].
  simpl. destruct (g a) eqn:Hg; simpl.
  - now rewrite IH.
  - destruct (f a) eqn:Hf; [|exact IH].
    apply Himp in Hf. congruence.
Qed.

Lemma filter_all {A} (f : A -> bool) (l : list A) :
  (forall x, In x l -> f x = true) -> filter f l = l.
Proof.
  induction l as [|a l IH]; intros Hall; [reflexivity|].
  simpl. rewrite (Hall a (or_introl eq_refl)).
  f_equal. apply IH. intros x Hx. apply Hall. now right.
Qed.

Section Retention.
Context {rt : Runtime}.

Lemma kept_fresh (today : Z) (r : SpeedResult) :
  Date.gt (parseDate (timestamp r)) (Some (sevenDaysAgo today)) = true <->
  fresh today r.
Proof. apply MonitorFacts.kept_iff. Qed.

Lemma measured_DATA_FILE (r : SpeedResult) (today : Z) (w : World) :
  DATA_FILE (disk (runMonitor_resume (Measured r) today w))
  = Stored (filteredData today (loadData (disk w))
            ++ filteredData today [r]).
Proof.
  destruct (MonitorFacts.resume_fields (Measured r) today w) as (Hd & _).
  cbv zeta in Hd. rewrite Hd, MonitorFacts.loadConfig_DATA_FILE.
  unfold tryMeasure, persist, saveData, filteredData. simpl DATA_FILE.
  now rewrite filter_app.
Qed.
End Retention.


(** X1.  Pruning with a later cutoff subsumes pruning with an earlier one:
    the filter of [runMonitor] applied at [today2] to a history already
    filtered at [today1] gives what it gives on the unfiltered history,
    provided the cutoff of [today1] is not after that of [today2].  In a zone
    whose offset never changes that is so whenever [today1] is not after
    [today2]; at equal times the filter is idempotent. *)
Theorem later_prune_subsumes_earlier
  {rt : Runtime} (today1 today2 : Z) (data : list SpeedResult) :
  (today1 + zoneShift today1 <= today2 + zoneShift today2 ->
   filteredData today2 (filteredData today1 data) = filteredData today2 data)
  /\
  (forall offset,
     (forall t isUTC, LocalTZA t isUTC = offset) ->
     today1 <= today2 ->
     filteredData today2 (filteredData today1 data)
     = filteredData today2 data).
Proof.
  assert (today1 + zoneShift today1 <= today2 + zoneShift today2 ->
          filteredData today2 (filteredData today1 data)
          = filteredData today2 data) as Hgeneral.
  { intros Hle. unfold filteredData at 1 2 3.
    apply filter_filter_implied. intros r Hr.
    apply kept_fresh in Hr. apply kept_fresh.
    destruct Hr as [t [Ht Hlt]]. exists t. split; [exact Ht | lia]. }
  split; [exact Hgeneral|].
  intros offset Hfixed Hle. apply Hgeneral.
  rewrite !(MonitorFacts.zoneShift_fixed offset) by exact Hfixed. lia.
Qed.

Lemma later_prune_subsumes_earlier_witness :
  filteredData (rt := isoUTC) noon_15_march_2024
    (filteredData (rt := isoUTC) (noon_15_march_2024 - 1000) threeReadings)
  = filteredData (rt := isoUTC) noon_15_march_2024 threeReadings.
Proof.
  apply (proj2 (later_prune_subsumes_earlier (rt := isoUTC)
                  (noon_15_march_2024 - 1000) noon_15_march_2024
                  threeReadings) 0).
  - reflexivity.
  - unfold noon_15_march_2024. lia.
Defined.

(** In New York on 3 November 2024 the clocks go back at 06:00 UTC: the
    cutoff at 06:01 is earlier than the cutoff at 05:59, and a reading of
    27 October, 05:30 UTC, removed at 05:59 would be kept at 06:01. *)
Example cutoff_steps_back_at_fall_back :
  let r := reading "2024-10-27T05:30:00.000Z" in
  Date.parseISO "2024-11-03T05:59:00.000Z" = Some 1730613540000 /\
  Date.parseISO "2024-11-03T06:01:00.000Z" = Some 1730613660000 /\
  sevenDaysAgo (rt := isoNewYork) 1730613540000 = 1730008740000 /\
  sevenDaysAgo (rt := isoNewYork) 1730613660000 = 1730005260000 /\
  filteredData (rt := isoNewYork) 1730613540000 [r] = [] /\
  filteredData (rt := isoNewYork) 1730613660000 [r] = [r].
Proof. repeat split; vm_compute; reflexivity. Qed.


(** X3.  After a cycle that measured a fresh reading,
    [GET /api/speed-data/latest] answers with that reading, whether the
    history file was missing, was not JSON, or held readings. *)
Theorem measured_reading_is_latest
  {rt : Runtime} (r : SpeedResult) (today : Z) (w : World) :
  fresh today r ->
  ApiServer.getLatest (disk (runMonitor_resume (Measured r) today w))
  = ApiServer.json (ApiServer.jsonReading r).
Proof.
  intros Hfresh.
  pose proof (measured_DATA_FILE r today w) as Hfile.
  replace (filteredData today [r]) with [r] in Hfile
    by (unfold filteredData; simpl;
        now rewrite (proj2 (kept_fresh today r) Hfresh)).
  destruct (disk (runMonitor_resume (Measured r) today w)) as [d c].
  simpl in Hfile. subst d. apply ApiFacts.getLatest_last.
Qed.

Lemma measured_reading_is_latest_witness :
  ApiServer.getLatest
    (disk (runMonitor_resume (rt := isoUTC) (Measured freshReading)
             noon_15_march_2024 (started corruptDisk)))
  = ApiServer.json (ApiServer.jsonReading freshReading).
Proof.
  apply (measured_reading_is_latest (rt := isoUTC)).
  exists 1710503998000. split; reflexivity.
Defined.

(** X4.  When every stored reading and the measured one are fresh, that is,
    stamped later than the cutoff of the retention step, the cycle appends:
    the history read afterwards is the one read before with the new reading
    at its end. *)
Theorem measured_cycle_appends
  {rt : Runtime} (r : SpeedResult) (today : Z) (w : World) :
  (forall x, In x (loadData (disk w)) -> fresh today x) ->
  fresh today r ->
  loadData (disk (runMonitor_resume (Measured r) today w))
  = loadData (disk w) ++ [r].
Proof.
  intros Hold Hnew.
  unfold loadData at 1. rewrite measured_DATA_FILE. simpl.
  unfold filteredData. f_equal.
  - apply filter_all. intros x Hx. apply kept_fresh. now apply Hold.
  - simpl. now rewrite (proj2 (kept_fresh today r) Hnew).
Qed.

Lemma measured_cycle_appends_witness :
  loadData (disk (runMonitor_resume (rt := isoUTC) (Measured freshReading)
                    noon_15_march_2024 (started diskTwo)))
  = twoReadings ++ [freshReading].
Proof.
  apply (measured_cycle_appends (rt := isoUTC) freshReading
           noon_15_march_2024 (started diskTwo)).
  - intros x [<- | [<- | []]].
    + exists 1710406800000. split; reflexivity.
    + exists 1710473400000. split; reflexivity.
  - exists 1710503998000. split; reflexivity.
Defined.

(** X5.  In a zone whose offset never changes, the cutoff that [runMonitor]
    computes by calendar arithmetic, [setDate(getDate() - 7)], is the instant
    604800000 milliseconds before [today], over every end of month and of
    year and every leap day; it is the cutoff of the 7-day view of the
    dashboard. *)
Theorem retention_cutoff_exact {rt : Runtime} (offset today : Z) :
  (forall t isUTC, LocalTZA t isUTC = offset) ->
  sevenDaysAgo today = today - 604800000 /\
  sevenDaysAgo today = today - 7 * 24 * 60 * 60 * 1000.
Proof.
  intros Hfixed.
  rewrite MonitorFacts.sevenDaysAgo_eq.
  rewrite (MonitorFacts.zoneShift_fixed offset today Hfixed).
  unfold Date.msPerDay. lia.
Qed.

Lemma retention_cutoff_exact_witness :
  sevenDaysAgo (rt := {| parseDate := Date.parseISO;
                         LocalTZA := Date.fixedOffset 32400000 |})
    4107745800000
  = 4107745800000 - 604800000.
Proof.
  apply (retention_cutoff_exact
           (rt := {| parseDate := Date.parseISO;
                     LocalTZA := Date.fixedOffset 32400000 |})
           32400000 4107745800000).
  reflexivity.
Defined.

Section Config.
Context {rt : Runtime}.

Lemma loadConfig_CONFIG_FILE (fs : FS) :
  CONFIG_FILE (snd (loadConfig fs)) = materialised (CONFIG_FILE fs).
Proof.
  unfold loadConfig, materialised.
  destruct fs as [d c]. simpl. now destruct c.
Qed.

Lemma materialised_twice (f : file Config) :
  materialised (materialised f) = materialised f.
Proof. now destruct f. Qed.

Lemma begin_CONFIG_FILE (now : Z) (w : World) :
  CONFIG_FILE (disk (runMonitor_begin now w))
  = if 10000 <? now - lastConfigCheck w
    then materialised (CONFIG_FILE (disk w))
    else CONFIG_FILE (disk w).
Proof.
  unfold runMonitor_begin. simpl.
  destruct (10000 <? now - lastConfigCheck w);
    [apply loadConfig_CONFIG_FILE | reflexivity].
Qed.

Lemma resume_CONFIG_FILE (o : outcome) (today : Z) (w : World) :
  CONFIG_FILE (disk (runMonitor_resume o today w))
  = materialised (CONFIG_FILE (disk w)).
Proof.
  destruct (MonitorFacts.resume_fields o today w) as (Hd & _).
  cbv zeta in Hd.
  now rewrite Hd, loadConfig_CONFIG_FILE, MonitorFacts.tryMeasure_CONFIG_FILE.
Qed.

(** The interval [loadConfig] returns, read off the config file. *)
Lemma loadConfig_interval (fs : FS) :
  intervalMinutes (fst (loadConfig fs))
  = match CONFIG_FILE fs with
    | Stored c => intervalMinutes c
    | _ => 30%Q
    end.
Proof. unfold loadConfig. now destruct (CONFIG_FILE fs). Qed.
End Config.

(** X6.  A call of [runMonitor], whatever the measurement gives, leaves the
    config file as it found it, except that it creates a missing one with the
    default; a config file that is not JSON stays as it is.  The look at the
    config at the top of the call does so only when more than ten seconds
    have passed since the last one. *)
Theorem scheduler_leaves_config
  {rt : Runtime} (now today : Z) (o : outcome) (w : World) :
  CONFIG_FILE (disk (runMonitor now o today w))
    = materialised (CONFIG_FILE (disk w)) /\
  (forall text, CONFIG_FILE (disk w) = Corrupt text ->
                CONFIG_FILE (disk (runMonitor now o today w)) = Corrupt text) /\
  (now - lastConfigCheck w <= 10000 ->
   disk (runMonitor_begin now w) = disk w).
Proof.
  assert (CONFIG_FILE (disk (runMonitor now o today w))
          = materialised (CONFIG_FILE (disk w))) as Hcfg.
  { unfold runMonitor. rewrite resume_CONFIG_FILE, begin_CONFIG_FILE.
    destruct (10000 <? now - lastConfigCheck w);
      [apply materialised_twice | reflexivity]. }
  split; [exact Hcfg|]. split.
  - intros text Hc. rewrite Hcfg, Hc. reflexivity.
  - intros Hrecent. unfold runMonitor_begin. simpl.
    replace (10000 <? now - lastConfigCheck w) with false
      by (symmetry; apply Z.ltb_ge; lia).
    reflexivity.
Qed.

Lemma scheduler_leaves_config_witness :
  let w := started {| DATA_FILE := Missing; CONFIG_FILE := Corrupt "{" |} in
  CONFIG_FILE (disk (runMonitor (rt := isoUTC) 5000 (Measured freshReading)
                       noon_15_march_2024 w)) = Corrupt "{" /\
  disk (runMonitor_begin 5000 w) = disk w.
Proof.
  destruct (scheduler_leaves_config (rt := isoUTC) 5000 noon_15_march_2024
              (Measured freshReading)
              (started {| DATA_FILE := Missing; CONFIG_FILE := Corrupt "{" |}))
    as (_ & Hcorrupt & Hrecent).
  split.
  - apply Hcorrupt. reflexivity.
  - apply Hrecent. simpl. lia.
Defined.

Section Intervals.
Context {rt : Runtime}.

Lemma range_check_passed (q : number) :
  ltb q 1%Q || gtb q 1440%Q = false -> (1 <= q <= 1440)%Q.
Proof.
  unfold gtb, ltb. intros H. apply orb_false_iff in H.
  destruct H as [H1 H2].
  apply negb_false_iff in H1, H2.
  apply Qle_bool_iff in H1, H2. split; assumption.
Qed.

Lemma range_check_failed (q : number) :
  ltb q 1%Q || gtb q 1440%Q = true -> ~ (1 <= q <= 1440)%Q.
Proof.
  unfold gtb, ltb. intros H [Hlo Hhi]. apply orb_true_iff in H.
  destruct H as [H | H]; apply negb_true_iff in H;
    [apply Qle_bool_iff in Hlo | apply Qle_bool_iff in Hhi]; congruence.
Qed.

Lemma materialised_inRange (f : file Config) :
  configInRange f -> configInRange (materialised f).
Proof. destruct f; simpl; intros H; try exact H. split; discriminate. Qed.

Lemma handle_configInRange (req : ApiServer.request) (fs : FS) :
  configInRange (CONFIG_FILE fs) ->
  configInRange (CONFIG_FILE (snd (ApiServer.handle req fs))).
Proof.
  intros Hok. destruct req as [ | | | reqBody | ]; simpl; try exact Hok.
  - unfold ApiServer.getConfig.
    change ApiServer.loadConfig with loadConfig.
    destruct (loadConfig fs) as [c fs'] eqn:E. simpl.
    replace fs' with (snd (loadConfig fs)) by now rewrite E.
    rewrite loadConfig_CONFIG_FILE. now apply materialised_inRange.
  - unfold ApiServer.putConfig.
    destruct (destructure "intervalMinutes" reqBody) as [v|]; [|exact Hok].
    destruct v as [ | | b | q | str | items | fields]; try exact Hok.
    destruct (ltb q 1%Q || gtb q 1440%Q) eqn:Hcheck; [exact Hok|].
    simpl. now apply range_check_passed.
  - unfold ApiServer.deleteSpeedData. simpl.
    now destruct (existsSync (DATA_FILE fs)).
Qed.

Lemma loaded_interval_inRange (fs : FS) :
  configInRange (CONFIG_FILE fs) ->
  (1 <= intervalMinutes (fst (loadConfig fs)) <= 1440)%Q.
Proof.
  intros Hok. rewrite loadConfig_interval.
  destruct (CONFIG_FILE fs); simpl in Hok; try exact Hok; split; discriminate.
Qed.

Lemma begin_configInRange (now : Z) (w : World) :
  configInRange (CONFIG_FILE (disk w)) ->
  configInRange (CONFIG_FILE (disk (runMonitor_begin now w))).
Proof.
  intros Hok. rewrite begin_CONFIG_FILE.
  destruct (10000 <? now - lastConfigCheck w);
    [now apply materialised_inRange | exact Hok].
Qed.

Lemma intervals_step (w w' : World) :
  configInRange (CONFIG_FILE (disk w)) /\ delaysInRange (pending w) ->
  step w w' ->
  configInRange (CONFIG_FILE (disk w')) /\ delaysInRange (pending w').
Proof.
  intros [Hc Hd] Hstep.
  destruct Hstep as [t now w Hin | o today w Haw | req w].
  - split.
    + apply begin_configInRange. exact Hc.
    + intros x Hx. simpl in Hx. apply filter_In in Hx. apply Hd, Hx.
  - split.
    + rewrite resume_CONFIG_FILE. now apply materialised_inRange.
    + destruct (MonitorFacts.resume_fields o today w)
        as (_ & _ & Hpend & _).
      intros x Hx. rewrite Hpend in Hx. apply in_app_or in Hx.
      destruct Hx as [Hx | [<- | []]].
      * apply Hd. unfold survivors in Hx.
        destruct (timeoutId w); [|exact Hx].
        simpl in Hx. apply filter_In in Hx. apply Hx.
      * simpl.
        assert (configInRange (CONFIG_FILE (tryMeasure o today (disk w))))
          as Hc' by now rewrite MonitorFacts.tryMeasure_CONFIG_FILE.
        pose proof (loaded_interval_inRange _ Hc') as Hq.
        split; lra.
  - split; [|exact Hd]. simpl. now apply handle_configInRange.
Qed.
End Intervals.

(** X8.  Started on a disk whose config file holds no interval outside 1 to
    1440 (or is missing, or is not JSON), the system keeps it so through
    every request and every cycle, and every timer the scheduler arms is set
    to no less than one minute and no more than one day. *)
Theorem intervals_stay_in_range {rt : Runtime} (fs : FS) (w : World) :
  configInRange (CONFIG_FILE fs) ->
  runsFrom fs w ->
  configInRange (CONFIG_FILE (disk w)) /\ delaysInRange (pending w).
Proof.
  intros Hfs Hruns.
  induction Hruns as [argv t0 t1 | w w' _ IH Hstep].
  - split.
    + unfold main. apply begin_configInRange. simpl.
      rewrite loadConfig_CONFIG_FILE. now apply materialised_inRange.
    + intros t [].
  - exact (intervals_step w w' IH Hstep).
Qed.

Lemma intervals_stay_in_range_witness :
  configInRange (CONFIG_FILE (disk firstCycle)) /\
  delaysInRange (pending firstCycle).
Proof.
  apply (intervals_stay_in_range (rt := isoUTC) disk30 firstCycle).
  - simpl. split; discriminate.
  - apply (runs_step disk30 (started disk30)).
    + apply runs_main.
    + apply (step_measured (Thrown "timeout") 1000 (started disk30)).
      simpl. lia.
Defined.

End MonitorExtras.

(** ** More on the API server *)

Module ApiExtras.
Import ApiServer Samples.
Local Open Scope string_scope.
Local Open Scope list_scope.
Local Open Scope Z_scope.

(** X9.  [PUT /api/config] answers 200 exactly when [intervalMinutes] of the
    request is a number from 1 to 1440; the number need not be whole.  A
    string such as "5", a missing property, or a body that is no object is
    refused. *)
Theorem putConfig_accepts_iff (reqBody : value) (fs : FS) :
  status (fst (putConfig reqBody fs)) = 200%nat <->
  exists q, destructure "intervalMinutes" reqBody = Some (Num q) /\
            (1 <= q <= 1440)%Q.
Proof.
  unfold putConfig. split.
  - destruct (destructure "intervalMinutes" reqBody) as [v|]; [|discriminate].
    destruct v as [ | | b | q | str | items | fields]; try discriminate.
    destruct (ltb q 1%Q || gtb q 1440%Q) eqn:Hcheck; [discriminate|].
    intros _. exists q. split; [reflexivity|].
    now apply MonitorExtras.range_check_passed.
  - intros [q [-> Hq]].
    destruct (ltb q 1%Q || gtb q 1440%Q) eqn:Hcheck; [|reflexivity].
    now apply MonitorExtras.range_check_failed in Hcheck.
Qed.

Lemma putConfig_accepts_iff_witness :
  status (fst (putConfig (Obj [("intervalMinutes", Num 2.5%Q)]) disk30))
    = 200%nat /\
  status (fst (putConfig (Obj [("intervalMinutes", Str "5")]) disk30))
    <> 200%nat.
Proof.
  split.
  - apply (putConfig_accepts_iff (Obj [("intervalMinutes", Num 2.5%Q)]) disk30).
    exists 2.5%Q. split; [reflexivity|]. split; discriminate.
  - intros H.
    apply (putConfig_accepts_iff (Obj [("intervalMinutes", Str "5")]) disk30)
      in H.
    destruct H as [q [H _]]. discriminate H.
Defined.

(** A [PUT /api/config] that is not answered 200 has written nothing, and
    none writes the history. *)
Lemma putConfig_cases (reqBody : value) (fs : FS) :
  (status (fst (putConfig reqBody fs)) <> 200%nat ->
   snd (putConfig reqBody fs) = fs) /\
  DATA_FILE (snd (putConfig reqBody fs)) = DATA_FILE fs.
Proof.
  unfold putConfig.
  destruct (destructure "intervalMinutes" reqBody) as [v|]; [|now split].
  destruct v as [ | | b | q | str | items | fields]; try now split.
  destruct (ltb q 1%Q || gtb q 1440%Q); [now split|].
  split; [|reflexivity]. intros H. now contradiction H.
Qed.

(** X10.  [PUT /api/config] answers 200, 400 or 500; 500 exactly when the
    body is [undefined] or [null].  Unless it answers 200 it leaves the disk
    as it was, and it never touches the history file. *)
Theorem putConfig_refusal_keeps_disk (reqBody : value) (fs : FS) :
  let res := fst (putConfig reqBody fs) in
  let fs' := snd (putConfig reqBody fs) in
  (status res = 200%nat \/ status res = 400%nat \/ status res = 500%nat) /\
  (status res = 500%nat <-> reqBody = Undefined \/ reqBody = Null) /\
  (status res <> 200%nat -> fs' = fs) /\
  DATA_FILE fs' = DATA_FILE fs.
Proof.
  unfold putConfig.
  destruct reqBody as [ | | b | n | str | items | fields]; simpl;
    try (repeat split; try tauto; try (intros [H | H]; discriminate H);
         try discriminate; auto; fail).
  destruct (lookup "intervalMinutes" fields)
    as [ | | b | q | str | items | fields']; simpl;
    try (repeat split; try tauto; try (intros [H | H]; discriminate H);
         try discriminate; auto; fail).
  destruct (ltb q 1%Q || gtb q 1440%Q); simpl;
    repeat split; try tauto; try (intros [H | H]; discriminate H);
    try discriminate; auto.
Qed.

Lemma putConfig_refusal_keeps_disk_witness :
  snd (putConfig Null diskWithMethod) = diskWithMethod /\
  snd (putConfig (Obj [("intervalMinutes", Num 0%Q)]) diskWithMethod)
    = diskWithMethod.
Proof.
  split.
  - apply (putConfig_refusal_keeps_disk Null diskWithMethod). discriminate.
  - apply (putConfig_refusal_keeps_disk
             (Obj [("intervalMinutes", Num 0%Q)]) diskWithMethod).
    discriminate.
Defined.

(** X11.  No request adds to the history or rewrites it: after any request
    the history file is what it was, or is gone after a DELETE.  The config
    file changes only by a PUT that is answered 200 and by the creation of
    the default when it was missing. *)
Theorem requests_never_write_history (req : request) (fs : FS) :
  let fs' := snd (handle req fs) in
  (DATA_FILE fs' = DATA_FILE fs \/
   (req = DELETE_speed_data /\ DATA_FILE fs' = Missing)) /\
  (CONFIG_FILE fs' = CONFIG_FILE fs \/
   (req = GET_config /\ CONFIG_FILE fs = Missing /\
    CONFIG_FILE fs' = Stored {| intervalMinutes := 30%Q; others := [] |}) \/
   (exists reqBody, req = PUT_config reqBody /\
                    status (fst (handle req fs)) = 200%nat)).
Proof.
  destruct req as [ | | | reqBody | ]; simpl.
  - auto.
  - auto.
  - unfold getConfig, loadConfig. destruct fs as [d c].
    destruct c; simpl; auto.
    split; [auto|]. right. left. auto.
  - pose proof (putConfig_cases reqBody fs) as (Hkeep & Hd).
    split; [left; exact Hd|].
    destruct (Nat.eq_dec (status (fst (putConfig reqBody fs))) 200) as [E|E].
    + right. right. exists reqBody. auto.
    + left. now rewrite (Hkeep E).
  - unfold deleteSpeedData. simpl.
    destruct (existsSync (DATA_FILE fs)); simpl; auto.
Qed.

(** X12.  After [DELETE /api/speed-data], whatever the history file was,
    [GET /api/speed-data] answers with the empty array, the latest reading
    is [null], the scheduler reads an empty history, and the config is as it
    was; a second DELETE changes nothing more. *)
Theorem delete_clears_history (fs : FS) :
  let fs' := snd (deleteSpeedData fs) in
  status (fst (deleteSpeedData fs)) = 200%nat /\
  getSpeedData fs' = json (Arr []) /\
  getLatest fs' = json Null /\
  SpeedMonitor.loadData fs' = [] /\
  CONFIG_FILE fs' = CONFIG_FILE fs /\
  snd (deleteSpeedData fs') = fs'.
Proof.
  unfold deleteSpeedData. destruct fs as [d c].
  destruct d; simpl; repeat split.
Qed.

(** X13.  On a history file that is not JSON the scheduler reads the empty
    history, but the two GET endpoints of the API answer 500; a cycle that
    measures anything replaces the file, and both answer 200 again. *)
Theorem corrupt_history_api_errors
  {rt : Runtime} (w : SpeedMonitor.World) (text : string)
  (r : SpeedResult) (today : Z) :
  DATA_FILE (SpeedMonitor.disk w) = Corrupt text ->
  let after := SpeedMonitor.disk
                 (SpeedMonitor.runMonitor_resume (SpeedMonitor.Measured r)
                    today w) in
  SpeedMonitor.loadData (SpeedMonitor.disk w) = [] /\
  status (getSpeedData (SpeedMonitor.disk w)) = 500%nat /\
  status (getLatest (SpeedMonitor.disk w)) = 500%nat /\
  status (getSpeedData after) = 200%nat /\
  status (getLatest after) = 200%nat.
Proof.
  intros Hc after.
  unfold SpeedMonitor.loadData, getSpeedData, getLatest at 1.
  rewrite Hc. simpl.
  pose proof (MonitorExtras.measured_DATA_FILE r today w) as Hfile.
  fold after in Hfile.
  unfold getSpeedData, getLatest. rewrite Hfile. simpl.
  repeat split.
Qed.

Lemma corrupt_history_api_errors_witness :
  status (getSpeedData corruptHistory) = 500%nat /\
  status (getLatest corruptHistory) = 500%nat /\
  status (getSpeedData
            (SpeedMonitor.disk
               (SpeedMonitor.runMonitor_resume (rt := isoUTC)
                  (SpeedMonitor.Measured freshReading) noon_15_march_2024
                  (started corruptHistory)))) = 200%nat.
Proof.
  destruct (corrupt_history_api_errors (rt := isoUTC) (started corruptHistory)
              "[{" freshReading noon_15_march_2024 eq_refl)
    as (_ & H1 & H2 & H3 & _).
  repeat split; assumption.
Defined.

(** X14.  The latest reading is the last element of the list: whenever
    [GET /api/speed-data] answers with a non-empty array,
    [GET /api/speed-data/latest] answers with its last element. *)
Theorem latest_is_last_of_list (fs : FS) (items : list value) :
  getSpeedData fs = json (Arr items) ->
  items <> [] ->
  getLatest fs = json (last items Undefined).
Proof.
  unfold getSpeedData. destruct fs as [d c].
  destruct d as [ | text | data]; simpl.
  - intros H Hne. injection H as <-. now contradiction Hne.
  - discriminate.
  - intros H Hne. injection H as <-.
    destruct (exists_last (l := data)) as [earlier [r ->]].
    { intros ->. now contradiction Hne. }
    rewrite ApiFacts.getLatest_last, map_app. simpl.
    now rewrite last_last.
Qed.

Lemma latest_is_last_of_list_witness :
  getLatest diskTwo
  = json (jsonReading (reading "2024-03-15T03:30:00.000Z")).
Proof.
  apply (latest_is_last_of_list diskTwo (map jsonReading twoReadings)).
  - reflexivity.
  - discriminate.
Defined.

(** X15.  [GET /api/config] writes at most once: asked again it gives the
    same answer and leaves the disk as the first call left it, and it never
    touches the history file.  The scheduler reads the config it answers
    with. *)
Theorem getConfig_writes_once (fs : FS) :
  let first := getConfig fs in
  let second := getConfig (snd first) in
  fst second = fst first /\
  snd second = snd first /\
  DATA_FILE (snd first) = DATA_FILE fs /\
  fst first = json (jsonConfig (fst (SpeedMonitor.loadConfig fs))).
Proof.
  unfold getConfig, loadConfig, SpeedMonitor.loadConfig.
  destruct fs as [d c]. destruct c; simpl; repeat split.
Qed.

End ApiExtras.

(** ** The dashboard *)

Module DashboardFacts.
Import Dashboard Samples.
Local Open Scope string_scope.
Local Open Scope list_scope.
Local Open Scope Z_scope.

(** X16.  The dashboard and the server agree on whole intervals: for an
    integer from 1 to 1440 [handleIntervalUpdate] sends the request and the
    server answers 200 and stores the interval; for any other integer, and for
    an input that [parseInt] makes NaN of, it sends nothing, and the server
    would have answered 400. *)
Theorem dashboard_and_server_agree (i : Z) (fs : FS) :
  handleIntervalUpdate None = None /\
  ((handleIntervalUpdate (Some i) = Some (updateConfig i) /\
    ApiServer.status (fst (ApiServer.handle (updateConfig i) fs)) = 200%nat /\
    CONFIG_FILE (snd (ApiServer.handle (updateConfig i) fs))
      = Stored {| intervalMinutes := inject_Z i; others := [] |}) \/
   (handleIntervalUpdate (Some i) = None /\
    ApiServer.status (fst (ApiServer.handle (updateConfig i) fs)) = 400%nat /\
    snd (ApiServer.handle (updateConfig i) fs) = fs)).
Proof.
  split; [reflexivity|].
  unfold handleIntervalUpdate, updateConfig. simpl.
  unfold ApiServer.putConfig. simpl. rewrite ApiFacts.range_check.
  destruct (Z.leb_spec 1 i) as [Hlo | Hlo];
    destruct (Z.leb_spec i 1440) as [Hhi | Hhi]; simpl.
  - left.
    replace ((i <? 1) || (1440 <? i)) with false
      by (symmetry; apply orb_false_iff; rewrite !Z.ltb_ge; lia).
    repeat split.
  - right.
    replace ((i <? 1) || (1440 <? i)) with true
      by (symmetry; apply orb_true_iff; rewrite !Z.ltb_lt; lia).
    repeat split.
  - right.
    replace ((i <? 1) || (1440 <? i)) with true
      by (symmetry; apply orb_true_iff; rewrite !Z.ltb_lt; lia).
    repeat split.
  - lia.
Qed.

Section Views.
Context {rt : Runtime}.

Lemma shown_iff (cutoff : Z) (r : SpeedResult) :
  Date.ge (parseDate (timestamp r)) (Some cutoff) = true <->
  exists t, parseDate (timestamp r) = Some t /\ cutoff <= t.
Proof.
  unfold Date.ge. destruct (parseDate (timestamp r)) as [t|].
  - rewrite Z.leb_le. split.
    + intros H. exists t. auto.
    + intros [t' [Ht' H]]. injection Ht' as <-. exact H.
  - split; [discriminate|]. intros [t' [Ht' _]]. discriminate.
Qed.
End Views.

(** X17.  The time ranges of the dashboard nest: what the 24-hour view shows
    the 7-day view shows, and every view shows readings of the data only, in
    their order; the views "all" and "custom" show all of the data. *)
Theorem dashboard_ranges_nest
  {rt : Runtime} (now : Z) (data : list SpeedResult) :
  (forall r, In r (filteredData range_24h now data) ->
             In r (filteredData range_7d now data)) /\
  filteredData range_24h now (filteredData range_7d now data)
    = filteredData range_24h now data /\
  (forall range r, In r (filteredData range now data) -> In r data) /\
  filteredData range_all now data = data /\
  filteredData range_custom now data = data.
Proof.
  repeat split.
  - intros r Hr. unfold filteredData in *.
    apply filter_In in Hr. destruct Hr as [Hin Hk]. apply filter_In.
    split; [exact Hin|]. apply shown_iff in Hk. apply shown_iff.
    destruct Hk as [t [Ht Hle]]. exists t. split; [exact Ht | lia].
  - unfold filteredData. apply MonitorExtras.filter_filter_implied.
    intros r Hk. apply shown_iff in Hk. apply shown_iff.
    destruct Hk as [t [Ht Hle]]. exists t. split; [exact Ht | lia].
  - intros range r Hr. destruct range; unfold filteredData in Hr;
      try exact Hr; apply filter_In in Hr; apply Hr.
Qed.

(** X18.  Wherever the cutoff of the scheduler is not before [now] minus
    seven times 24 hours, as in every zone whose offset never changes, the
    7-day view of the dashboard shows every reading the scheduler keeps at
    the same instant.  In a zone whose offset never changes they differ on a
    reading exactly seven days old, which the dashboard shows and the
    scheduler removes. *)
Theorem dashboard_shows_what_monitor_keeps
  {rt : Runtime} (now : Z) (data : list SpeedResult) :
  (0 <= System.zoneShift now ->
   forall r, In r (SpeedMonitor.filteredData now data) ->
             In r (filteredData range_7d now data)) /\
  (forall offset,
     (forall t isUTC, LocalTZA t isUTC = offset) ->
     forall r, In r data ->
               parseDate (timestamp r) = Some (now - 7 * Date.msPerDay) ->
               In r (filteredData range_7d now data) /\
               ~ In r (SpeedMonitor.filteredData now data)).
Proof.
  split.
  - intros Hshift r Hr. unfold SpeedMonitor.filteredData in Hr.
    apply filter_In in Hr. destruct Hr as [Hin Hk].
    apply MonitorFacts.kept_iff in Hk. destruct Hk as [t [Ht Hlt]].
    unfold filteredData. apply filter_In. split; [exact Hin|].
    apply shown_iff. exists t. split; [exact Ht|].
    unfold Date.msPerDay in Hlt. lia.
  - intros offset Hfixed r Hin Hts. split.
    + unfold filteredData. apply filter_In. split; [exact Hin|].
      apply shown_iff. eexists. split; [exact Hts|].
      unfold Date.msPerDay. lia.
    + intros Hr. unfold SpeedMonitor.filteredData in Hr.
      apply filter_In in Hr. destruct Hr as [_ Hk].
      apply MonitorFacts.kept_iff in Hk. destruct Hk as [t [Ht Hlt]].
      rewrite (MonitorFacts.zoneShift_fixed offset now Hfixed) in Hlt.
      rewrite Hts in Ht. injection Ht as Ht. unfold Date.msPerDay in *. lia.
Qed.

Lemma dashboard_shows_what_monitor_keeps_witness :
  let r := reading "2024-03-08T12:00:00.000Z" in
  In r (filteredData (rt := isoUTC) range_7d noon_15_march_2024 threeReadings)
  /\ ~ In r (SpeedMonitor.filteredData (rt := isoUTC) noon_15_march_2024
                threeReadings).
Proof.
  apply (proj2 (dashboard_shows_what_monitor_keeps (rt := isoUTC)
                  noon_15_march_2024 threeReadings) 0).
  - reflexivity.
  - simpl. auto.
  - reflexivity.
Defined.

(** In New York, a few days after the clocks went back, the scheduler keeps
    a reading seven days and half an hour old, which the 7-day view of the
    dashboard does not show. *)
Example monitor_keeps_more_after_fall_back :
  let r := reading "2024-10-30T11:30:00.000Z" in
  Date.parseISO "2024-11-06T12:00:00.000Z" = Some 1730894400000 /\
  System.zoneShift (rt := isoNewYork) 1730894400000 = -3600000 /\
  SpeedMonitor.filteredData (rt := isoNewYork) 1730894400000 [r] = [r] /\
  filteredData (rt := isoNewYork) range_7d 1730894400000 [r] = [].
Proof. repeat split; vm_compute; reflexivity. Qed.

Lemma HourFromTime_range (t : Z) : 0 <= Date.HourFromTime t < 24.
Proof. unfold Date.HourFromTime. apply Z.mod_pos_bound. lia. Qed.

Ltac settle_comparisons :=
  repeat match goal with
    | |- context [?a <=? ?b] =>
        first [ replace (a <=? b) with true
                  by (symmetry; apply Z.leb_le; lia)
              | replace (a <=? b) with false
                  by (symmetry; apply Z.leb_gt; lia) ]
    | |- context [?a <? ?b] =>
        first [ replace (a <? b) with true
                  by (symmetry; apply Z.ltb_lt; lia)
              | replace (a <? b) with false
                  by (symmetry; apply Z.ltb_ge; lia) ]
    end.

(** X19.  The six time slots of the dashboard count every reading whose
    timestamp is a date exactly once, whatever the time zone: their counts
    add up to the number of such readings.  A reading whose timestamp is no
    date is counted in no slot. *)
Theorem slots_count_each_reading_once
  {rt : Runtime} (filtered : list SpeedResult) :
  list_sum (slotCounts filtered)
  = List.length
      (filter (fun d => match parseDate (timestamp d) with
                        | Some _ => true
                        | None => false
                        end) filtered).
Proof.
  induction filtered as [|d l IH]; [reflexivity|].
  unfold slotCounts, timeSlots, slotData in *.
  cbn [map start stop filter] in *.
  destruct (parseDate (timestamp d)) as [t|].
  - cbv zeta.
    pose proof (HourFromTime_range (Date.LocalTime LocalTZA t)) as Hh.
    fold (Date.getHours LocalTZA t) in Hh.
    set (h := Date.getHours LocalTZA t) in *.
    assert (h < 3 \/ 3 <= h < 6 \/ 6 <= h < 12 \/ 12 <= h < 16 \/
            16 <= h < 20 \/ 20 <= h) as Hslot by lia.
    destruct Hslot as [H | [H | [H | [H | [H | H]]]]];
      settle_comparisons; cbn [andb List.length list_sum fold_right] in *;
      lia.
  - cbn [List.length list_sum fold_right] in *. exact IH.
Qed.

Section Peaks.

Lemma ltb_true (a b : number) : ltb a b = true <-> (a < b)%Q.
Proof.
  unfold ltb. rewrite negb_true_iff. split.
  - intros H. apply Qnot_le_lt. intros Hle.
    apply Qle_bool_iff in Hle. congruence.
  - intros H. destruct (Qle_bool b a) eqn:E; [|reflexivity].
    apply Qle_bool_iff in E. lra.
Qed.

Lemma ltb_false (a b : number) : ltb a b = false <-> (b <= a)%Q.
Proof.
  unfold ltb. rewrite negb_false_iff. apply Qle_bool_iff.
Qed.

(** The running maximum is one of the numbers and no smaller than any. *)
Lemma fold_max_spec (rest : list number) :
  forall x,
    let m := fold_left (fun m y => if ltb m y then y else m) rest x in
    In m (x :: rest) /\ forall y, In y (x :: rest) -> (y <= m)%Q.
Proof.
  induction rest as [|a rest IH]; intros x; cbn [fold_left].
  - split; [now left|]. intros y [<- | []]. lra.
  - destruct (IH (if ltb x a then a else x)) as [Hin Hge].
    split.
    + destruct Hin as [Hin | Hin]; [|now right; right].
      rewrite <- Hin. destruct (ltb x a); [right; now left | now left].
    + intros y Hy.
      assert (x <= (if ltb x a then a else x) /\
              a <= (if ltb x a then a else x))%Q as [Hx Ha].
      { destruct (ltb x a) eqn:E.
        - apply ltb_true in E. lra.
        - apply ltb_false in E. lra. }
      pose proof (Hge _ (or_introl eq_refl)) as Hfirst.
      destruct Hy as [<- | [<- | Hy]];
        [exact (Qle_trans _ _ _ Hx Hfirst) | exact (Qle_trans _ _ _ Ha Hfirst) |].
      apply Hge. now right.
Qed.

Lemma fold_min_spec (rest : list number) :
  forall x,
    let m := fold_left (fun m y => if ltb y m then y else m) rest x in
    In m (x :: rest) /\ forall y, In y (x :: rest) -> (m <= y)%Q.
Proof.
  induction rest as [|a rest IH]; intros x; cbn [fold_left].
  - split; [now left|]. intros y [<- | []]. lra.
  - destruct (IH (if ltb a x then a else x)) as [Hin Hge].
    split.
    + destruct Hin as [Hin | Hin]; [|now right; right].
      rewrite <- Hin. destruct (ltb a x); [right; now left | now left].
    + intros y Hy.
      assert ((if ltb a x then a else x) <= x /\
              (if ltb a x then a else x) <= a)%Q as [Hx Ha].
      { destruct (ltb a x) eqn:E.
        - apply ltb_true in E. lra.
        - apply ltb_false in E. lra. }
      pose proof (Hge _ (or_introl eq_refl)) as Hfirst.
      destruct Hy as [<- | [<- | Hy]];
        [exact (Qle_trans _ _ _ Hfirst Hx) | exact (Qle_trans _ _ _ Hfirst Ha) |].
      apply Hge. now right.
Qed.

(** [indexOf] on a number that occurs: the first place where it does. *)
Lemma indexFrom_spec (x : number) (xs : list number) :
  forall k,
    In x xs ->
    let n := Z.to_nat (indexFrom k x xs - k) in
    k <= indexFrom k x xs < k + Z.of_nat (List.length xs) /\
    (exists y, nth_error xs n = Some y /\ (y == x)%Q) /\
    (forall j y, (j < n)%nat -> nth_error xs j = Some y -> ~ (y == x)%Q).
Proof.
  induction xs as [|a xs IH]; intros k Hin; [destruct Hin|].
  cbn [indexFrom].
  destruct (Qeq_bool a x) eqn:E.
  - replace (Z.to_nat (k - k)) with 0%nat by lia.
    split; [cbn [List.length]; lia|]. split.
    + exists a. split; [reflexivity|]. now apply Qeq_bool_iff.
    + intros j y Hj. lia.
  - assert (In x xs) as Hin'.
    { destruct Hin as [-> | Hin]; [|exact Hin].
      rewrite (proj2 (Qeq_bool_iff x x)) in E by reflexivity. discriminate. }
    destruct (IH (k + 1) Hin') as (Hrange & Hfound & Hfirst).
    replace (Z.to_nat (indexFrom (k + 1) x xs - k))
      with (S (Z.to_nat (indexFrom (k + 1) x xs - (k + 1)))) by lia.
    split; [cbn [List.length]; lia|]. split.
    + exact Hfound.
    + intros [|j] y Hj Hy.
      * injection Hy as <-. intros Heq.
        apply Qeq_bool_iff in Heq. congruence.
      * apply (Hfirst j y); [lia | exact Hy].
Qed.

Lemma peak_is_firstLargest (f : SpeedResult -> number)
      (l : list SpeedResult) :
  l <> [] ->
  firstLargest f l (indexOf (Math_max (map f l)) (map f l)).
Proof.
  destruct l as [|r0 rest]; [congruence|]. intros _.
  set (l := r0 :: rest).
  change (Math_max (map f l))
    with (Some (fold_left (fun m y => if ltb m y then y else m)
                          (map f rest) (f r0))).
  destruct (fold_max_spec (map f rest) (f r0)) as [Hin Hge].
  set (m := fold_left _ (map f rest) (f r0)) in *.
  cbn [indexOf].
  change (f r0 :: map f rest) with (map f l) in Hin, Hge.
  destruct (indexFrom_spec m (map f l) 0 Hin) as (Hrange & Hfound & Hfirst).
  rewrite Z.sub_0_r in Hfound, Hfirst.
  rewrite length_map in Hrange.
  split; [lia|].
  destruct Hfound as [y [Hy Heq]].
  rewrite nth_error_map in Hy.
  destruct (nth_error l (Z.to_nat (indexFrom 0 m (map f l)))) as [r|] eqn:Hr;
    [|discriminate].
  injection Hy as <-. exists r. split; [reflexivity|]. split.
  - intros d Hd. pose proof (Hge (f d) (in_map f l d Hd)). lra.
  - intros j d Hj Hd.
    pose proof (Hge (f d) (in_map f l d (nth_error_In l j Hd))) as Hle.
    assert (~ (f d == m)%Q) as Hne.
    { apply (Hfirst j); [exact Hj|]. now rewrite nth_error_map, Hd. }
    apply Qle_lt_or_eq in Hle. destruct Hle as [Hlt | Heq']; [lra | tauto].
Qed.

Lemma peak_is_firstSmallest (f : SpeedResult -> number)
      (l : list SpeedResult) :
  l <> [] ->
  firstSmallest f l (indexOf (Math_min (map f l)) (map f l)).
Proof.
  destruct l as [|r0 rest]; [congruence|]. intros _.
  set (l := r0 :: rest).
  change (Math_min (map f l))
    with (Some (fold_left (fun m y => if ltb y m then y else m)
                          (map f rest) (f r0))).
  destruct (fold_min_spec (map f rest) (f r0)) as [Hin Hge].
  set (m := fold_left _ (map f rest) (f r0)) in *.
  cbn [indexOf].
  change (f r0 :: map f rest) with (map f l) in Hin, Hge.
  destruct (indexFrom_spec m (map f l) 0 Hin) as (Hrange & Hfound & Hfirst).
  rewrite Z.sub_0_r in Hfound, Hfirst.
  rewrite length_map in Hrange.
  split; [lia|].
  destruct Hfound as [y [Hy Heq]].
  rewrite nth_error_map in Hy.
  destruct (nth_error l (Z.to_nat (indexFrom 0 m (map f l)))) as [r|] eqn:Hr;
    [|discriminate].
  injection Hy as <-. exists r. split; [reflexivity|]. split.
  - intros d Hd. pose proof (Hge (f d) (in_map f l d Hd)). lra.
  - intros j d Hj Hd.
    pose proof (Hge (f d) (in_map f l d (nth_error_In l j Hd))) as Hle.
    assert (~ (f d == m)%Q) as Hne.
    { apply (Hfirst j); [exact Hj|]. now rewrite nth_error_map, Hd. }
    apply Qle_lt_or_eq in Hle. destruct Hle as [Hlt | Heq']; [lra|].
    exfalso. apply Hne. now symmetry.
Qed.
End Peaks.

(** X20.  On data that is not empty the three indices of [peakStats] lie
    within the data, so that the reading they select exists: the first
    reading with the largest download, the first with the largest upload,
    and the first with the smallest ping. *)
Theorem peak_indices_select_first_best (filtered : list SpeedResult) :
  filtered <> [] ->
  firstLargest download filtered (maxDownloadIndex filtered) /\
  firstLargest upload filtered (maxUploadIndex filtered) /\
  firstSmallest ping filtered (minPingIndex filtered).
Proof.
  intros Hne. unfold maxDownloadIndex, maxUploadIndex, minPingIndex.
  split; [|split].
  - apply (peak_is_firstLargest download filtered Hne).
  - apply (peak_is_firstLargest upload filtered Hne).
  - apply (peak_is_firstSmallest ping filtered Hne).
Qed.

Lemma peak_indices_select_first_best_witness :
  (maxDownloadIndex variedReadings, maxUploadIndex variedReadings,
   minPingIndex variedReadings) = (1, 2, 1) /\
  firstLargest download variedReadings (maxDownloadIndex variedReadings) /\
  firstLargest upload variedReadings (maxUploadIndex variedReadings) /\
  firstSmallest ping variedReadings (minPingIndex variedReadings).
Proof.
  split; [reflexivity|].
  apply (peak_indices_select_first_best variedReadings). discriminate.
Defined.

Example slots_of_varied_readings :
  slotCounts (rt := isoUTC) variedReadings = [0; 1; 1; 0; 0; 1]%nat /\
  slotCounts (rt := {| parseDate := Date.parseISO;
                         LocalTZA := Date.fixedOffset 32400000 |})
    variedReadings = [0; 0; 1; 1; 1; 0]%nat.
Proof. split; reflexivity. Qed.

End DashboardFacts.
